(** * Flashbots bundle signing, timestamp extrapolation and inclusion tracking

    A shallow embedding of [sync/flashbots.py] and [async/flashbots.py]:
    the bundle signer ([sign_bundle] with its nonce ledger), the signed
    transaction normaliser ([_parse_signed_tx]), [extrapolate_timestamp],
    [FlashbotsBundleResponse.bundle_hash] and the polling loop of
    [FlashbotsPrivateTransactionResponse].

    Python values are modelled by [pyval]; dictionaries are finite maps
    from key strings to values.  The transaction dictionaries that
    [sign_bundle] completes in place live in a store and are referred to
    by location, so that two bundle entries may carry the same dictionary
    object.  A raised exception is the [Raise] case of [result]; what a
    call had written to the store before it raised is not tracked.  Within
    one call of [sign_bundle] the chain client is a function of its
    arguments; the polling loops see the chain change from one iteration
    to the next. *)

From Stdlib Require Import ZArith Lia.
From Stdlib.Strings Require Import Byte Ascii.
From stdpp Require Import base option list gmap strings.

Local Open Scope Z_scope.

(** ** Python values, exceptions *)

Abbreviation bytes := (list byte) (only parsing).

#[global] Instance byte_eq_dec : EqDecision byte := Byte.byte_eq_dec.

(** [eth_account.signers.local.LocalAccount]: an address and the key it
    signs with. *)
Record LocalAccount := { address : string; key : Z }.

Abbreviation loc := nat (only parsing).

#[warnings="-register-all"]
Inductive pyval :=
| VNone
| VInt (n : Z)
| VStr (s : string)
| VBytes (b : bytes)
| VList (l : list pyval)
| VAccount (a : LocalAccount)
| VRef (l : loc).

Abbreviation pydict := (gmap string pyval) (only parsing).

(** The mutable dictionaries reachable from a bundle. *)
Abbreviation store := (gmap nat (gmap string pyval)) (only parsing).

Inductive exn :=
| KeyError (k : string)
| IndexError
| TypeError
| AttributeError
| ValueError (msg : string)
| AssertionError
| Exception (msg : string)
| TransactionNotFound
| RPCError (msg : string).

Inductive result (A : Type) :=
| Ok (a : A)
| Raise (e : exn).
Arguments Ok {A} a.
Arguments Raise {A} e.

#[global] Instance result_ret : MRet result := @Ok.
#[global] Instance result_bind : MBind result := λ A B f m,
  match m with Ok a => f a | Raise e => Raise e end.

(** [d[k]] *)
Definition getitem (d : gmap string pyval) (k : string) : result pyval :=
  match d !! k with Some v => Ok v | None => Raise (KeyError k) end.

(** [k in d] *)
Definition contains (d : gmap string pyval) (k : string) : bool :=
  bool_decide (is_Some (d !! k)).

(** [d.get(k)]: [None] when the key is missing. *)
Definition dict_get (d : gmap string pyval) (k : string) : pyval :=
  default VNone (d !! k).

(** [v is None] *)
Definition is_None (v : pyval) : bool :=
  match v with VNone => true | _ => false end.

(** Truth value of [v] in a condition; a dictionary is read through the
    store. *)
Definition truthy (h : gmap nat (gmap string pyval)) (v : pyval) : bool :=
  match v with
  | VNone => false
  | VInt n => negb (n =? 0)
  | VStr s => negb (bool_decide (s = ""%string))
  | VBytes b => negb (bool_decide (b = []))
  | VList l => negb (bool_decide (length l = 0%nat))
  | VAccount _ => true
  | VRef l => match h !! l with Some d => negb (bool_decide (size d = 0%nat)) | None => true end
  end.

(** [b == v] for a byte string [b]: only an equal byte string compares
    equal. *)
Definition bytes_eq (b : bytes) (v : pyval) : bool :=
  match v with VBytes b' => bool_decide (b = b') | _ => false end.

(** [v + 1] for the nonce arithmetic: only integers can be added to [1]. *)
Definition plus_one (v : pyval) : result Z :=
  match v with VInt n => Ok (n + 1) | _ => Raise TypeError end.

(** [int(b.hex(), 16)]: the big-endian value of a byte string; the empty
    string has no digits, and [int] raises [ValueError]. *)
Definition be_value (b : bytes) : Z :=
  fold_left (λ acc x, acc * 256 + Z.of_N (Byte.to_N x)) b 0.

Definition int_of_hex (v : pyval) : result Z :=
  match v with
  | VBytes [] => Raise (ValueError "invalid literal for int() with base 16")
  | VBytes b => Ok (be_value b)
  | _ => Raise AttributeError
  end.

(** [reduce(f, l)] without an initial value. *)
Definition reduce {A} (f : A → A → A) (l : list A) : result A :=
  match l with
  | [] => Raise TypeError
  | x :: xs => Ok (fold_left f xs x)
  end.

(** ** External collaborators

    The chain client, the RLP codec and the signing library are outside
    the repository; they are taken as parameters. *)

(** The [sedes] argument of [rlp.decode] in [_parse_signed_tx]. *)
Inductive sedes :=
| Transaction
| AccessListTransaction_signed_transaction_serializer
| DynamicFeeTransaction_signed_transaction_serializer.

Record Collaborators := {
  (** [w3.keccak] *)
  keccak : bytes → bytes;
  (** [w3.eth.get_transaction_count(address)] *)
  get_transaction_count : string → result Z;
  (** [w3.eth.estimate_gas(tx_dict)] *)
  estimate_gas : gmap string pyval → result Z;
  (** [w3.eth.get_block(n)] *)
  get_block : Z → result (gmap string pyval);
  (** [rlp.decode(data, sedes).as_dict()] *)
  rlp_decode : sedes → bytes → result (gmap string pyval);
  (** [Account.recover_transaction(signed_tx)] *)
  recover_transaction : bytes → result string;
  (** [signer.sign_transaction(tx_dict).rawTransaction] *)
  sign_transaction : LocalAccount → gmap string pyval → result bytes;
  (** [HexBytes(v)] *)
  to_HexBytes : pyval → result bytes;
  (** The unsigned transaction object of [eth_account]. *)
  UnsignedTransaction : Type;
  serializable_unsigned_transaction_from_dict :
    gmap string pyval → result UnsignedTransaction;
  (** [encode_transaction(unsigned_tx, vrs=(v, r, s))] *)
  encode_transaction : UnsignedTransaction → pyval * Z * Z → result bytes;
}.

(** ** The signed-transaction normaliser *)

Section Normaliser.
Context (c : Collaborators).

(** [toolz.dissoc(d, "v", "r", "s")] *)
Definition dissoc (d : gmap string pyval) (ks : list string) : gmap string pyval :=
  foldr delete d ks.

Definition _parse_signed_tx (signed_tx : bytes) : result (gmap string pyval) :=
  match signed_tx with
  | [] => Raise IndexError
  | b0 :: body =>
      let tx_type := Z.of_N (Byte.to_N b0) in
      decoded_tx ←
        (if 127 <? tx_type then rlp_decode c Transaction signed_tx
         else if tx_type =? 1 then
           rlp_decode c AccessListTransaction_signed_transaction_serializer body
         else if tx_type =? 2 then
           rlp_decode c DynamicFeeTransaction_signed_transaction_serializer body
         else Raise (ValueError "Unknown transaction type"));
      sender ← recover_transaction c signed_tx;
      Ok (dissoc (<["from" := VStr sender]> decoded_tx) ["v"; "r"; "s"]%string)
  end.
End Normaliser.

(** ** The bundle signer *)

(** The local variables of [sign_bundle] together with the store. *)
Record sign_state := {
  nonces : gmap string Z;
  signed_transactions : list bytes;
  heap : gmap nat (gmap string pyval);
}.

Definition sign_init (h : gmap nat (gmap string pyval)) : sign_state :=
  {| nonces := ∅; signed_transactions := []; heap := h |}.

Section Signer.
Context (c : Collaborators).

(** The branch [if "signed_transaction" in tx]. *)
Definition sign_raw (st : sign_state) (tx : gmap string pyval) : result sign_state :=
  raw ← getitem tx "signed_transaction";
  match raw with
  | VBytes signed_tx =>
      tx_params ← _parse_signed_tx c signed_tx;
      nonce ← getitem tx_params "nonce";
      next ← plus_one nonce;
      sender ← getitem tx_params "from";
      match sender with
      | VStr a =>
          Ok {| nonces := <[a := next]> (nonces st);
                signed_transactions := signed_transactions st ++ [signed_tx];
                heap := heap st |}
      | _ => Raise TypeError
      end
  | _ => Raise TypeError
  end.

(** The transaction dictionary after lines 137-142 of the synchronous
    module, with the nonce that was used. *)
Definition complete_tx_dict (ledger : gmap string Z) (a : LocalAccount)
    (tx_dict : gmap string pyval) : result (gmap string pyval * Z) :=
  let d1 := <["from" := VStr (address a)]> tx_dict in
  d2 ← (if is_None (dict_get d1 "nonce") then
           count ← get_transaction_count c (address a);
           Ok (<["nonce" := VInt (default count (ledger !! address a))]> d1)
         else Ok d1);
  nonce ← getitem d2 "nonce";
  next ← plus_one nonce;
  d3 ← (if contains d2 "gas" then Ok d2
         else gas ← estimate_gas c d2; Ok (<["gas" := VInt gas]> d2));
  Ok (d3, next).

(** The branch [elif "signer" in tx]. *)
Definition sign_signer (st : sign_state) (tx : gmap string pyval) : result sign_state :=
  signer ← getitem tx "signer";
  tx_dict ← getitem tx "transaction";
  match signer with
  | VAccount a =>
      match tx_dict with
      | VRef l =>
          match heap st !! l with
          | Some d =>
              '(d3, next) ← complete_tx_dict (nonces st) a d;
              raw ← sign_transaction c a d3;
              Ok {| nonces := <[address a := next]> (nonces st);
                    signed_transactions := signed_transactions st ++ [raw];
                    heap := <[l := d3]> (heap st) |}
          | None => Raise TypeError
          end
      | _ => Raise TypeError
      end
  | _ => Raise AttributeError
  end.

(** Lines 147-168: the bytes re-encoded from a dictionary-style
    transaction. *)
Definition reencode (h : gmap nat (gmap string pyval)) (tx : gmap string pyval)
    : result bytes :=
  v ← getitem tx "v";
  r ← getitem tx "r" ≫= int_of_hex;
  s ← getitem tx "s" ≫= int_of_hex;
  nonce ← getitem tx "nonce";
  data ← getitem tx "input" ≫= to_HexBytes c;
  value ← getitem tx "value";
  gas ← getitem tx "gas";
  let tx_dict : gmap string pyval :=
    <["gas" := gas]> (<["value" := value]>
      (<["data" := VBytes data]> (<["nonce" := nonce]> ∅))) in
  tx_dict ←
    (if contains tx "maxFeePerGas" || contains tx "maxPriorityFeePerGas" then
       if contains tx "maxFeePerGas" && contains tx "maxPriorityFeePerGas" then
         fee ← getitem tx "maxFeePerGas";
         tip ← getitem tx "maxPriorityFeePerGas";
         Ok (<["maxPriorityFeePerGas" := tip]> (<["maxFeePerGas" := fee]> tx_dict))
       else Raise AssertionError
     else
       if contains tx "gasPrice" then
         price ← getitem tx "gasPrice";
         Ok (<["gasPrice" := price]> tx_dict)
       else Raise AssertionError);
  let tx_dict :=
    if truthy h (dict_get tx "accessList")
    then <["accessList" := dict_get tx "accessList"]> tx_dict else tx_dict in
  let tx_dict :=
    if truthy h (dict_get tx "chainId")
    then <["chainId" := dict_get tx "chainId"]> tx_dict else tx_dict in
  tx_dict ←
    (if truthy h (dict_get tx "to")
     then to ← getitem tx "to" ≫= to_HexBytes c; Ok (<["to" := VBytes to]> tx_dict)
     else Ok tx_dict);
  unsigned_tx ← serializable_unsigned_transaction_from_dict c tx_dict;
  encode_transaction c unsigned_tx (v, r, s).

(** The branch [elif all(key in tx for key in ["v", "r", "s"])]. *)
Definition sign_decoded (st : sign_state) (tx : gmap string pyval) : result sign_state :=
  raw ← reencode (heap st) tx;
  declared ← getitem tx "hash";
  if bytes_eq (keccak c raw) declared then
    Ok {| nonces := nonces st;
          signed_transactions := signed_transactions st ++ [raw];
          heap := heap st |}
  else Raise AssertionError.
End Signer.

(** [sync/flashbots.py]: an entry that matches none of the three
    conditions falls through the [if]/[elif] chain. *)
Module Sync.
Section Sync.
Context (c : Collaborators).

(** The body of the loop [for tx in bundled_transactions]. *)
Definition sign_tx (st : sign_state) (tx : gmap string pyval) : result sign_state :=
  if contains tx "signed_transaction" then sign_raw c st tx
  else if contains tx "signer" then sign_signer c st tx
  else if forallb (contains tx) ["v"; "r"; "s"]%string then sign_decoded c st tx
  else Ok st.

Fixpoint sign_loop (st : sign_state) (txs : list (gmap string pyval))
    : result sign_state :=
  match txs with
  | [] => Ok st
  | tx :: rest => st' ← sign_tx st tx; sign_loop st' rest
  end.

(** The returned list, with the store as the call leaves it. *)
Definition sign_bundle (bundled_transactions : list (gmap string pyval))
    (h : gmap nat (gmap string pyval))
    : result (list bytes * gmap nat (gmap string pyval)) :=
  st ← sign_loop (sign_init h) bundled_transactions;
  Ok (signed_transactions st, heap st).
End Sync.
End Sync.

(** [async/flashbots.py]: two branches and a final [else: raise]. *)
Module Async.
Section Async.
Context (c : Collaborators).

Definition sign_tx (st : sign_state) (tx : gmap string pyval) : result sign_state :=
  if contains tx "signed_transaction" then sign_raw c st tx
  else if contains tx "signer" then sign_signer c st tx
  else Raise (ValueError "Unsupported transaction type in bundle").

Fixpoint sign_loop (st : sign_state) (txs : list (gmap string pyval))
    : result sign_state :=
  match txs with
  | [] => Ok st
  | tx :: rest => st' ← sign_tx st tx; sign_loop st' rest
  end.

Definition sign_bundle (bundled_transactions : list (gmap string pyval))
    (h : gmap nat (gmap string pyval))
    : result (list bytes * gmap nat (gmap string pyval)) :=
  st ← sign_loop (sign_init h) bundled_transactions;
  Ok (signed_transactions st, heap st).
End Async.
End Async.

(** ** Timestamp extrapolation *)

Definition SECONDS_PER_BLOCK : Z := 12.

Section Extrapolate.
Context (c : Collaborators).

Definition extrapolate_timestamp (block_tag latest_block_number : Z) : result Z :=
  let block_delta := block_tag - latest_block_number in
  if block_delta <? 0 then Raise (Exception "block extrapolation negative")
  else
    block ← get_block c latest_block_number;
    timestamp ← getitem block "timestamp";
    match timestamp with
    | VInt t => Ok (t + block_delta * SECONDS_PER_BLOCK)
    | _ => Raise TypeError
    end.
End Extrapolate.

(** ** Inclusion trackers *)

(** [SignedTxAndHash] *)
Record SignedTxAndHash := { signed_transaction : bytes; hash : bytes }.

Module FlashbotsBundleResponse.
Section BundleResponse.
Context (c : Collaborators).

Record t := { bundle : list SignedTxAndHash; target_block_number : Z }.

(** [__init__] *)
Definition init (txs : list bytes) (target_block_number : Z) : t :=
  {| bundle := map (λ tx, {| signed_transaction := tx; hash := keccak c tx |}) txs;
     target_block_number := target_block_number |}.

Definition bundle_hash (self : t) : result bytes :=
  concat_hashes ← reduce (λ a b, a ++ b) (map hash (bundle self));
  Ok (keccak c concat_hashes).
End BundleResponse.
End FlashbotsBundleResponse.

(** What the chain client answers during one iteration of a polling loop. *)
Record ChainView := {
  block_number : result Z;
  get_transaction : bytes → result (gmap string pyval);
  get_transaction_receipt : bytes → result (gmap string pyval);
}.

Module FlashbotsPrivateTransactionResponse.
Section PrivateTransactionResponse.
Context (c : Collaborators).
(** The chain as seen in the k-th iteration of [wait]. *)
Context (chain : nat → ChainView).

Record t := { max_block_number : Z; tx : SignedTxAndHash }.

(** [__init__] *)
Definition init (signed_tx : bytes) (max_block_number : Z) : t :=
  {| max_block_number := max_block_number;
     tx := {| signed_transaction := signed_tx; hash := keccak c signed_tx |} |}.

(** [wait], started in iteration [k] and allowed [fuel] iterations; the
    result comes with the iteration that returned it.  [None]: still
    polling when the fuel ran out. *)
Fixpoint wait_from (self : t) (fuel k : nat) : option (nat * result bool) :=
  match fuel with
  | O => None
  | S fuel' =>
      match get_transaction (chain k) (hash (tx self)) with
      | Ok _ => Some (k, Ok true)
      | Raise TransactionNotFound =>
          match block_number (chain k) with
          | Ok height =>
              if max_block_number self <? height then Some (k, Ok false)
              else wait_from self fuel' (S k)
          | Raise e => Some (k, Raise e)
          end
      | Raise e => Some (k, Raise e)
      end
  end.

Definition wait (self : t) (fuel : nat) : option (nat * result bool) :=
  wait_from self fuel 0.

(** [receipt]: [Ok None] is Python's [None]. *)
Definition receipt (self : t) (fuel : nat)
    : option (result (option (gmap string pyval))) :=
  match wait self fuel with
  | None => None
  | Some (k, Ok true) =>
      Some (r ← get_transaction_receipt (chain k) (hash (tx self)); Ok (Some r))
  | Some (k, Ok false) => Some (Ok None)
  | Some (k, Raise e) => Some (Raise e)
  end.
End PrivateTransactionResponse.
End FlashbotsPrivateTransactionResponse.

(** ** The three kinds of bundle entry

    The predicates below name what the key tests of the loop body
    distinguish; the statements about [sign_bundle] are phrased with them. *)

(** A [FlashbotsBundleRawTx] carrying the signed bytes [b]. *)
Definition is_raw_entry (tx : gmap string pyval) (b : bytes) : Prop :=
  tx !! "signed_transaction" = Some (VBytes b).

(** A [FlashbotsBundleTx] of signer [a] whose transaction dictionary is
    the object at [l]. *)
Definition is_signer_entry (tx : gmap string pyval) (a : LocalAccount) (l : nat) : Prop :=
  tx !! "signed_transaction" = None ∧
  tx !! "signer" = Some (VAccount a) ∧
  tx !! "transaction" = Some (VRef l).

(** A [FlashbotsBundleDictTx]: neither of the above, with all of v, r, s. *)
Definition is_decoded_entry (tx : gmap string pyval) : Prop :=
  tx !! "signed_transaction" = None ∧ tx !! "signer" = None ∧
  is_Some (tx !! "v") ∧ is_Some (tx !! "r") ∧ is_Some (tx !! "s").

(** The entry matches one of the three conditions of the loop body. *)
Definition recognised (tx : gmap string pyval) : bool :=
  contains tx "signed_transaction" || contains tx "signer"
  || forallb (contains tx) ["v"; "r"; "s"]%string.

(** The transaction dictionary [d] carries no nonce: the key is missing or
    holds [None]. *)
Definition nonce_less (d : gmap string pyval) : Prop :=
  is_None (dict_get d "nonce") = true.

(** Processing [tx] writes the ledger entry of sender [S]: a raw
    transaction recovered to [S], or a signer entry of the account [S]. *)
Definition sets_ledger (c : Collaborators) (tx : gmap string pyval) (S : string) : Prop :=
  (∃ b p, is_raw_entry tx b ∧ _parse_signed_tx c b = Ok p ∧ p !! "from" = Some (VStr S)) ∨
  (∃ a l, is_signer_entry tx a l ∧ address a = S).

(** [raw] is the signed transaction of entry [tx], where [st] is the
    state right after the entry was processed: the bytes the entry
    carries, the signature of its completed dictionary, or its
    re-encoding. *)
Definition corresponds (c : Collaborators) (st : sign_state)
    (tx : gmap string pyval) (raw : bytes) : Prop :=
  if contains tx "signed_transaction" then is_raw_entry tx raw
  else if contains tx "signer" then
    ∃ a l d, is_signer_entry tx a l ∧ heap st !! l = Some d ∧
             sign_transaction c a d = Ok raw
  else
    is_decoded_entry tx ∧ reencode c (heap st) tx = Ok raw ∧
    tx !! "hash" = Some (VBytes (keccak c raw)).

(** The dictionary [d] was signed for [a] with nonce [n] and produced
    [raw]. *)
Definition signed_with (c : Collaborators) (a : LocalAccount)
    (d : gmap string pyval) (n : Z) (raw : bytes) : Prop :=
  d !! "nonce" = Some (VInt n) ∧ d !! "from" = Some (VStr (address a)) ∧
  sign_transaction c a d = Ok raw.

(** [d'] is [d] with at most the keys from, nonce and gas written, a
    nonce that was there kept, and a gas entry that was there kept. *)
Definition completes (d d' : gmap string pyval) : Prop :=
  (∀ k, k ≠ "from"%string → k ≠ "nonce"%string → k ≠ "gas"%string →
        d' !! k = d !! k) ∧
  (¬ nonce_less d → d' !! "nonce" = d !! "nonce") ∧
  (is_Some (d !! "gas") → d' !! "gas" = d !! "gas").

(** [d] has its sender set to [addr], an integer nonce and a gas entry. *)
Definition completed (addr : string) (d : gmap string pyval) : Prop :=
  d !! "from" = Some (VStr addr) ∧ (∃ n, d !! "nonce" = Some (VInt n)) ∧
  is_Some (d !! "gas").

(** The keys of the unsigned transaction a dictionary-style entry is
    re-encoded from. *)
Definition unsigned_keys : gset string :=
  {[ "nonce"; "data"; "value"; "gas"; "maxFeePerGas"; "maxPriorityFeePerGas";
     "gasPrice"; "accessList"; "chainId"; "to" ]}%string.

(** [tx_dict] is the unsigned transaction reconstructed from the
    non-signature fields of the dictionary-style entry [tx]: nonce, value
    and gas as they are, the input as the data bytes, either both
    fee-market fields or the gas price, the access list and the chain id
    when they are set, the recipient as bytes when it is set, and
    nothing else (no v, r, s, no hash, no sender). *)
Definition reconstructs (c : Collaborators) (h : gmap nat (gmap string pyval))
    (tx tx_dict : gmap string pyval) : Prop :=
  (is_Some (tx !! "nonce") ∧ tx_dict !! "nonce" = tx !! "nonce") ∧
  (∃ input data, tx !! "input" = Some input ∧ to_HexBytes c input = Ok data ∧
                 tx_dict !! "data" = Some (VBytes data)) ∧
  (is_Some (tx !! "value") ∧ tx_dict !! "value" = tx !! "value") ∧
  (is_Some (tx !! "gas") ∧ tx_dict !! "gas" = tx !! "gas") ∧
  (if contains tx "maxFeePerGas" || contains tx "maxPriorityFeePerGas"
   then is_Some (tx !! "maxFeePerGas") ∧ is_Some (tx !! "maxPriorityFeePerGas") ∧
        tx_dict !! "maxFeePerGas" = tx !! "maxFeePerGas" ∧
        tx_dict !! "maxPriorityFeePerGas" = tx !! "maxPriorityFeePerGas" ∧
        tx_dict !! "gasPrice" = None
   else is_Some (tx !! "gasPrice") ∧ tx_dict !! "gasPrice" = tx !! "gasPrice" ∧
        tx_dict !! "maxFeePerGas" = None ∧
        tx_dict !! "maxPriorityFeePerGas" = None) ∧
  tx_dict !! "accessList" =
    (if truthy h (dict_get tx "accessList") then tx !! "accessList" else None) ∧
  tx_dict !! "chainId" =
    (if truthy h (dict_get tx "chainId") then tx !! "chainId" else None) ∧
  (if truthy h (dict_get tx "to")
   then ∃ to_field to, tx !! "to" = Some to_field ∧ to_HexBytes c to_field = Ok to ∧
                       tx_dict !! "to" = Some (VBytes to)
   else tx_dict !! "to" = None) ∧
  dom tx_dict ⊆ unsigned_keys.

(** The dictionary object a signer entry carries, if [tx] is one. *)
Definition signer_dict (tx : gmap string pyval) : option nat :=
  if contains tx "signed_transaction" then None
  else match tx !! "signer", tx !! "transaction" with
       | Some (VAccount _), Some (VRef l) => Some l
       | _, _ => None
       end.

(** No value of the dictionary is itself a dictionary object. *)
Definition no_dict_values (tx : gmap string pyval) : bool :=
  forallb (λ kv, match kv.2 with VRef _ => false | _ => true end) (map_to_list tx).

(** ** Hexadecimal text *)

(** The lower-case digit of a value below 16. *)
Definition hex_digit (n : N) : ascii :=
  match n with
  | 0 => "0" | 1 => "1" | 2 => "2" | 3 => "3" | 4 => "4" | 5 => "5"
  | 6 => "6" | 7 => "7" | 8 => "8" | 9 => "9" | 10 => "a" | 11 => "b"
  | 12 => "c" | 13 => "d" | 14 => "e" | _ => "f"
  end%N%char.

(** What [bytes.hex()] returns: two digits per byte, no prefix. *)
Fixpoint bytes_hex (b : bytes) : string :=
  match b with
  | [] => ""
  | x :: rest =>
      String (hex_digit (Byte.to_N x / 16))
        (String (hex_digit (Byte.to_N x mod 16)) (bytes_hex rest))
  end.

(** Formatting functions of the Python runtime and of [web3] that the
    request builders call. *)
Record Runtime := {
  (** [b.hex()] of a byte string: [bytes.hex] has no prefix, the [hex]
      method of [HexBytes] before version 1.0 puts "0x" in front. *)
  hex_method : bytes → string;
  (** [hex(n)] *)
  py_hex : Z → string;
  (** [w3.to_hex(v)] *)
  w3_to_hex : pyval → result string;
}.

(** ** Request builders of the synchronous module *)

Section Mungers.
Context (c : Collaborators) (rt : Runtime).

Definition to_hex (signed_transaction : bytes) : string :=
  let tx_hex := hex_method rt signed_transaction in
  if String.prefix "0x" tx_hex then tx_hex else ("0x" +:+ tx_hex)%string.

(** [opts.get(k, default)] after [if opts is None: opts = {}]. *)
Definition opts_get (opts : option (gmap string pyval)) (k : string) (dflt : pyval)
    : pyval :=
  default dflt (default ∅ opts !! k).

Definition send_raw_bundle_munger (signed_bundled_transactions : list bytes)
    (target_block_number : Z) (opts : option (gmap string pyval))
    : list (gmap string pyval) :=
  [ <["txs" := VList (map (λ tx, VStr (to_hex tx)) signed_bundled_transactions)]>
    (<["blockNumber" := VStr (py_hex rt target_block_number)]>
    (<["minTimestamp" := opts_get opts "minTimestamp" (VInt 0)]>
    (<["maxTimestamp" := opts_get opts "maxTimestamp" (VInt 0)]>
    (<["revertingTxHashes" := opts_get opts "revertingTxHashes" (VList [])]>
    (<["replacementUuid" := opts_get opts "replacementUuid" VNone]> ∅))))) ].

(** [send_bundle_munger]: the parameters, the tracker stored in
    [self.response], and the store as signing leaves it. *)
Definition send_bundle_munger (bundled_transactions : list (gmap string pyval))
    (target_block_number : Z) (opts : option (gmap string pyval))
    (h : gmap nat (gmap string pyval))
    : result (list (gmap string pyval) * FlashbotsBundleResponse.t *
              gmap nat (gmap string pyval)) :=
  '(signed_txs, h') ← Sync.sign_bundle c bundled_transactions h;
  let response := FlashbotsBundleResponse.init c signed_txs target_block_number in
  Ok (send_raw_bundle_munger signed_txs target_block_number opts, response, h').

Definition call_bundle_munger (signed_bundled_transactions : list bytes)
    (evm_block_number evm_block_state_number : string) (evm_timestamp : pyval)
    : list (gmap string pyval) :=
  [ <["txs" := VList (map (λ tx, VStr (hex_method rt tx)) signed_bundled_transactions)]>
    (<["blockNumber" := VStr evm_block_number]>
    (<["stateBlockNumber" := VStr evm_block_state_number]>
    (<["timestamp" := evm_timestamp]> ∅))) ].

(** [send_private_transaction_munger]; [head] is what reading
    [w3.eth.block_number] gives.  The signer's dictionary is signed as it
    is and not written to. *)
Definition send_private_transaction_munger (transaction : gmap string pyval)
    (max_block_number : option Z) (head : result Z)
    (h : gmap nat (gmap string pyval))
    : result (list (gmap string pyval) * FlashbotsPrivateTransactionResponse.t) :=
  signed_transaction ←
    (if contains transaction "signed_transaction" then
       getitem transaction "signed_transaction"
     else
       signer ← getitem transaction "signer";
       match signer with
       | VAccount a =>
           tx_dict ← getitem transaction "transaction";
           match tx_dict with
           | VRef l =>
               match h !! l with
               | Some d => raw ← sign_transaction c a d; Ok (VBytes raw)
               | None => Raise TypeError
               end
           | _ => Raise TypeError
           end
       | _ => Raise AttributeError
       end);
  max_block_number ←
    match max_block_number with
    | Some m => Ok m
    | None => current_block ← head; Ok (current_block + 25)
    end;
  match signed_transaction with
  | VBytes signed_tx =>
      let params : gmap string pyval :=
        <["tx" := VStr (to_hex signed_tx)]>
          (<["maxBlockNumber" := VInt max_block_number]> ∅) in
      Ok ([params],
          FlashbotsPrivateTransactionResponse.init c signed_tx max_block_number)
  | _ => Raise AttributeError
  end.
End Mungers.

(** ** Simulation *)

(** The object [eth_callBundle] returns: its fields other than results,
    and its results array when it has one. *)
Record CallResult := {
  fields : gmap string pyval;
  results : option (list (gmap string pyval));
}.

(** What [simulate] returns. *)
Record Simulation := {
  bundleHash : pyval;
  coinbaseDiff : pyval;
  sim_results : list (gmap string pyval);
  signedBundledTransactions : list bytes;
  totalGasUsed : Z;
}.

(** [reduce(lambda a, b: a + b["gasUsed"], results, 0)], from the
    accumulator [a] on. *)
Fixpoint total_gas_used (a : Z) (results : list (gmap string pyval)) : result Z :=
  match results with
  | [] => Ok a
  | b :: rest =>
      g ← getitem b "gasUsed";
      match g with
      | VInt n => total_gas_used (a + n) rest
      | _ => Raise TypeError
      end
  end.

Section Simulate.
Context (c : Collaborators) (rt : Runtime).
(** The relay's answer to [eth_callBundle] with the given parameters. *)
Context (eth_callBundle : list (gmap string pyval) → result CallResult).

(** [block_tag is None or block_tag == "latest"] *)
Definition is_latest (block_tag : pyval) : bool :=
  match block_tag with
  | VNone => true
  | VStr s => bool_decide (s = "latest"%string)
  | _ => false
  end.

(** [simulate]; [head1] and [head2] are what the two reads of
    [w3.eth.block_number] (lines 244 and 247) give when they happen. *)
Definition simulate (bundled_transactions : list (gmap string pyval))
    (block_tag : pyval) (state_block_tag : option Z) (block_timestamp : option Z)
    (head1 head2 : result Z) (h : gmap nat (gmap string pyval))
    : result (Simulation * gmap nat (gmap string pyval)) :=
  block_number ← (if is_latest block_tag then n ← head1; Ok (VInt n) else Ok block_tag);
  evm_block_number ← w3_to_hex rt block_number;
  evm_block_state_number ←
    match state_block_tag with
    | Some s => w3_to_hex rt (VInt s)
    | None =>
        match block_number with
        | VInt n => w3_to_hex rt (VInt (n - 1))
        | _ => Raise TypeError
        end
    end;
  evm_timestamp ←
    match block_timestamp with
    | Some t => Ok t
    | None =>
        latest ← head2;
        match block_number with
        | VInt n => extrapolate_timestamp c n latest
        | _ => Raise TypeError
        end
    end;
  '(signed_bundled_transactions, h') ← Sync.sign_bundle c bundled_transactions h;
  call_result ← eth_callBundle
    (call_bundle_munger rt signed_bundled_transactions evm_block_number
       evm_block_state_number (VInt evm_timestamp));
  bundle_hash ← getitem (fields call_result) "bundleHash";
  coinbase_diff ← getitem (fields call_result) "coinbaseDiff";
  results ← match results call_result with
             | Some rs => Ok rs
             | None => Raise (KeyError "results")
             end;
  total ← total_gas_used 0 results;
  Ok ({| bundleHash := bundle_hash; coinbaseDiff := coinbase_diff;
         sim_results := results;
         signedBundledTransactions := signed_bundled_transactions;
         totalGasUsed := total |}, h').
End Simulate.

(** ** The bundle tracker's polling *)

Module BundleResponsePolling.
Section Polling.
(** The chain as seen in the k-th iteration of [wait]. *)
Context (chain : nat → ChainView).

(** [FlashbotsBundleResponse.wait], started in iteration [k] with [fuel]
    iterations allowed; it returns (nothing) in the iteration given, or
    raises there.  [None]: still polling when the fuel ran out. *)
Fixpoint wait_from (self : FlashbotsBundleResponse.t) (fuel k : nat)
    : option (nat * result unit) :=
  match fuel with
  | O => None
  | S fuel' =>
      match block_number (chain k) with
      | Ok height =>
          if height <? FlashbotsBundleResponse.target_block_number self
          then wait_from self fuel' (S k)
          else Some (k, Ok ())
      | Raise e => Some (k, Raise e)
      end
  end.

Definition wait (self : FlashbotsBundleResponse.t) (fuel : nat)
    : option (nat * result unit) :=
  wait_from self fuel 0.

(** [[w3.eth.get_transaction_receipt(tx["hash"]) for tx in bundle]], read
    from the chain as the iteration that ended the wait saw it. *)
Fixpoint get_receipts (view : ChainView) (bundle : list SignedTxAndHash)
    : result (list (gmap string pyval)) :=
  match bundle with
  | [] => Ok []
  | tx :: rest =>
      r ← get_transaction_receipt view (hash tx);
      rs ← get_receipts view rest;
      Ok (r :: rs)
  end.

Definition receipts (self : FlashbotsBundleResponse.t) (fuel : nat)
    : option (result (list (gmap string pyval))) :=
  match wait self fuel with
  | None => None
  | Some (k, Ok _) => Some (get_receipts (chain k) (FlashbotsBundleResponse.bundle self))
  | Some (k, Raise e) => Some (Raise e)
  end.
End Polling.
End BundleResponsePolling.

(** An iteration of the private-transaction tracker that keeps polling:
    the lookup does not find the transaction and the height read is not
    above the maximum. *)
Definition keeps_polling (chain : nat → ChainView)
    (self : FlashbotsPrivateTransactionResponse.t) (j : nat) : Prop :=
  get_transaction (chain j) (hash (FlashbotsPrivateTransactionResponse.tx self)) =
    Raise TransactionNotFound ∧
  ∃ n, block_number (chain j) = Ok n ∧
       n ≤ FlashbotsPrivateTransactionResponse.max_block_number self.

(** ** The middleware and the provider *)

(** The endpoints of class [FlashbotsRPC] in [flashbots.py]. *)
Module FlashbotsRPC.
Definition eth_sendBundle : string := "eth_sendBundle".
Definition eth_callBundle : string := "eth_callBundle".
Definition eth_cancelBundle : string := "eth_cancelBundle".
Definition eth_sendPrivateTransaction : string := "eth_sendPrivateTransaction".
Definition eth_cancelPrivateTransaction : string := "eth_cancelPrivateTransaction".
Definition flashbots_getBundleStats : string := "flashbots_getBundleStats".
Definition flashbots_getUserStats : string := "flashbots_getUserStats".
Definition flashbots_getBundleStatsV2 : string := "flashbots_getBundleStatsV2".
Definition flashbots_getUserStatsV2 : string := "flashbots_getUserStatsV2".
End FlashbotsRPC.

(** [FLASHBOTS_METHODS] of [middleware.py]. *)
Definition FLASHBOTS_METHODS : gset string :=
  {[ "eth_sendBundle"; "eth_callBundle"; "eth_cancelBundle";
     "eth_sendPrivateTransaction"; "eth_cancelPrivateTransaction";
     "flashbots_getBundleStats"; "flashbots_getUserStats";
     "flashbots_getBundleStatsV2"; "flashbots_getUserStatsV2" ]}%string.

(** The function [wrap_make_request] returns. *)
Definition wrap_make_request {P R : Type}
    (flashbots_provider_make_request make_request : string → P → R)
    (method : string) (params : P) : R :=
  if bool_decide (method ∈ FLASHBOTS_METHODS)
  then flashbots_provider_make_request method params
  else make_request method params.

(** The call [session.request(method="POST", url=..., data=..., headers=...)]. *)
Record HttpRequest := {
  http_method : string;
  url : string;
  data : bytes;
  headers : gmap string string;
  kwargs : gmap string pyval;
}.

Section Provider.
(** [request_data.decode("utf-8")] *)
Context (decode_utf8 : bytes → result string).
(** [Web3.keccak(text=...).hex()] *)
Context (keccak_text_hex : string → string).
(** [Account.sign_message(encode_defunct(text=...), private_key).signature.hex()] *)
Context (sign_defunct_hex : Z → string → result string).
Context (signature_account : LocalAccount) (endpoint_uri : string).
(** [self.request_kwargs] *)
Context (request_kwargs : option (gmap string pyval)).
(** [get_request_headers()] and [encode_rpc_request], [decode_rpc_response]
    of the HTTP provider; [session.request(...).content]. *)
Context {P R : Type} (get_request_headers : gmap string string).
Context (encode_rpc_request : string → P → bytes).
Context (decode_rpc_response : bytes → result R).
Context (session_request : HttpRequest → result bytes).

Definition _get_flashbots_headers (request_data : bytes)
    : result (gmap string string) :=
  request_text ← decode_utf8 request_data;
  signature ← sign_defunct_hex (key signature_account) (keccak_text_hex request_text);
  Ok {[ "X-Flashbots-Signature"%string :=
          (address signature_account +:+ ":" +:+ signature)%string ]}.

(** [a | b] on dictionaries: the right operand wins. *)
Definition dict_or (a b : gmap string string) : gmap string string := b ∪ a.

(** [make_request]: the request passed to the session, and the decoded
    response. *)
Definition make_request (method : string) (params : P)
    : result (HttpRequest * R) :=
  let request_data := encode_rpc_request method params in
  flashbots_headers ← _get_flashbots_headers request_data;
  let combined_headers := dict_or get_request_headers flashbots_headers in
  let request := {| http_method := "POST"; url := endpoint_uri;
                    data := request_data; headers := combined_headers;
                    kwargs := default ∅ request_kwargs |} in
  raw_response ← session_request request;
  decoded_response ← decode_rpc_response raw_response;
  Ok (request, decoded_response).
End Provider.

(** [tx] is a signer entry of the sender [S]. *)
Definition is_signer_of (S : string) (tx : gmap string pyval) : bool :=
  if contains tx "signed_transaction" then false
  else match tx !! "signer", tx !! "transaction" with
       | Some (VAccount a), Some (VRef _) => bool_decide (address a = S)
       | _, _ => false
       end.

(** ** Test doubles

    Small executable collaborators on which the statements below are
    exercised.  A toy signed transaction is the three bytes
    [type; sender; nonce]. *)

Module Demo.
Definition byte_of (z : Z) : byte :=
  default x00 (Byte.of_N (Z.to_N (z mod 256))).

Definition addr_of (b : byte) : string :=
  if bool_decide (b = x0a) then "0xA" else "0xB".

Definition demo_keccak (b : bytes) : bytes :=
  take 32 (b ++ replicate 32 x00).

Definition demo_decode (s : sedes) (data : bytes) : result (gmap string pyval) :=
  let fields (n : byte) : gmap string pyval :=
    <["nonce" := VInt (Z.of_N (Byte.to_N n))]>
      (<["v" := VInt 27]> (<["r" := VInt 1]> (<["s" := VInt 1]> ∅))) in
  match s, data with
  | Transaction, [_; _; n] => Ok (fields n)
  | AccessListTransaction_signed_transaction_serializer, [_; n] => Ok (fields n)
  | DynamicFeeTransaction_signed_transaction_serializer, [_; n] => Ok (fields n)
  | _, _ => Raise (ValueError "rlp: malformed input")
  end.

Definition demo_recover (signed_tx : bytes) : result string :=
  match signed_tx with
  | [_; s; _] => Ok (addr_of s)
  | _ => Raise (ValueError "cannot recover sender")
  end.

Definition demo_sign (a : LocalAccount) (d : gmap string pyval) : result bytes :=
  match d !! "nonce", d !! "gas" with
  | Some (VInt n), Some (VInt _) => Ok [x02; byte_of (key a); byte_of n]
  | _, _ => Raise TypeError
  end.

Definition demo_HexBytes (v : pyval) : result bytes :=
  match v with
  | VBytes b => Ok b
  | VStr s => Ok (String.list_byte_of_string s)
  | _ => Raise TypeError
  end.

Definition demo_encode (u : gmap string pyval) (vrs : pyval * Z * Z) : result bytes :=
  match u !! "nonce" with
  | Some (VInt n) => Ok [xc3; byte_of (vrs.1.2); byte_of (vrs.2); byte_of n]
  | _ => Raise TypeError
  end.

Definition w3 : Collaborators := {|
  keccak := demo_keccak;
  get_transaction_count := λ a, Ok (if bool_decide (a = "0xA"%string) then 3 else 40);
  estimate_gas := λ _, Ok 21000;
  get_block := λ n, Ok (<["timestamp" := VInt (1700000000 + 12 * n)]> ∅);
  rlp_decode := demo_decode;
  recover_transaction := demo_recover;
  sign_transaction := demo_sign;
  to_HexBytes := demo_HexBytes;
  UnsignedTransaction := gmap string pyval;
  serializable_unsigned_transaction_from_dict := Ok;
  encode_transaction := demo_encode;
|}.

Definition alice : LocalAccount := {| address := "0xA"; key := 10 |}.
Definition bob : LocalAccount := {| address := "0xB"; key := 11 |}.

(** [{"signed_transaction": b}] *)
Definition raw_spec (b : bytes) : gmap string pyval :=
  <["signed_transaction" := VBytes b]> ∅.

(** [{"signer": a, "transaction": <dict at l>}] *)
Definition signer_spec (a : LocalAccount) (l : nat) : gmap string pyval :=
  <["signer" := VAccount a]> (<["transaction" := VRef l]> ∅).

(** A legacy transaction of sender [sender] decoded into a dictionary,
    with the hash [h] it declares. *)
Definition decoded_spec (sender : string) (nonce : Z) (h : bytes) : gmap string pyval :=
  list_to_map [
    ("from", VStr sender); ("nonce", VInt nonce); ("input", VBytes []);
    ("value", VInt 0); ("gas", VInt 21000); ("gasPrice", VInt 5);
    ("to", VBytes [x01]); ("v", VInt 27); ("r", VBytes [x07]);
    ("s", VBytes [x09]); ("hash", VBytes h)]%string.

(** Alice's toy transaction with nonce 5, already signed. *)
Definition raw_alice_5 : bytes := [x02; x0a; x05].

(** The bytes [decoded_spec _ 7 _] re-encodes to, and their hash. *)
Definition reencoded_7 : bytes := [xc3; x07; x09; x07].
Definition hash_7 : bytes := demo_keccak reencoded_7.

(** The unsigned transaction [decoded_spec _ 7 _] is re-encoded from. *)
Definition unsigned_7 : gmap string pyval :=
  list_to_map [
    ("nonce", VInt 7); ("data", VBytes []); ("value", VInt 0);
    ("gas", VInt 21000); ("gasPrice", VInt 5); ("to", VBytes [x01])]%string.

(** An unsigned transfer without nonce and gas. *)
Definition transfer : gmap string pyval :=
  <["to" := VStr "0xC"]> (<["value" := VInt 1]> ∅).

(** A store with three separate transfer dictionaries. *)
Definition heap0 : gmap nat (gmap string pyval) :=
  <[0%nat := transfer]> (<[1%nat := transfer]> (<[2%nat := transfer]> ∅)).

(** One bundle with all three kinds of entry, the first one twice. *)
Definition bundle_mixed : list (gmap string pyval) :=
  [raw_spec raw_alice_5; raw_spec raw_alice_5; signer_spec alice 0;
   decoded_spec "0xB" 7 hash_7; signer_spec bob 1].

(** [transfer] as the signer completes it for sender [addr] with nonce
    [n]. *)
Definition completed_transfer (addr : string) (n : Z) : gmap string pyval :=
  <["gas" := VInt 21000]> (<["nonce" := VInt n]> (<["from" := VStr addr]> transfer)).

(** What signing [bundle_mixed] on [heap0] returns and leaves. *)
Definition out_mixed : list bytes :=
  [raw_alice_5; raw_alice_5; [x02; x0a; x06]; reencoded_7; [x02; x0b; x28]].
Definition heap_mixed : gmap nat (gmap string pyval) :=
  <[1%nat := completed_transfer "0xB" 40]>
    (<[0%nat := completed_transfer "0xA" 6]> heap0).


(** A chain on which no transaction is ever found and whose height
    is [100 + k] in iteration [k]. *)
Definition silent_chain (k : nat) : ChainView := {|
  block_number := Ok (100 + Z.of_nat k);
  get_transaction := λ _, Raise TransactionNotFound;
  get_transaction_receipt := λ _, Raise TransactionNotFound;
|}.

(** A chain whose height is [100 + k] in iteration [k] and on which
    every transaction is found from iteration 2 on. *)
Definition mining_chain (k : nat) : ChainView := {|
  block_number := Ok (100 + Z.of_nat k);
  get_transaction := λ _,
    if (2 <=? k)%nat then Ok (<["blockNumber" := VInt 102]> ∅)
    else Raise TransactionNotFound;
  get_transaction_receipt := λ _, Ok (<["status" := VInt 1]> ∅);
|}.

(** A dictionary that is none of the three kinds of entry. *)
Definition unsupported_spec : gmap string pyval :=
  <["to" := VStr "0xC"]> (<["value" := VInt 1]> ∅).
End Demo.

(** ** More test doubles *)

Module DemoMore.
(** [Demo.w3] with a chain client that cannot be reached. *)
Definition w3_offline : Collaborators := {|
  keccak := Demo.demo_keccak;
  get_transaction_count := λ _, Raise (RPCError "offline");
  estimate_gas := λ _, Raise (RPCError "offline");
  get_block := λ _, Raise (RPCError "offline");
  rlp_decode := Demo.demo_decode;
  recover_transaction := Demo.demo_recover;
  sign_transaction := Demo.demo_sign;
  to_HexBytes := Demo.demo_HexBytes;
  UnsignedTransaction := gmap string pyval;
  serializable_unsigned_transaction_from_dict := Ok;
  encode_transaction := Demo.demo_encode;
|}.

(** Byte strings print without prefix; numbers print their lowest byte. *)
Definition rt : Runtime := {|
  hex_method := bytes_hex;
  py_hex := λ n, ("0x" +:+ bytes_hex [Demo.byte_of n])%string;
  w3_to_hex := λ v,
    match v with
    | VInt n => Ok ("0x" +:+ bytes_hex [Demo.byte_of n])%string
    | _ => Raise TypeError
    end;
|}.

(** A relay that reports two results whatever it is asked. *)
Definition call_bundle (params : list (gmap string pyval)) : result CallResult :=
  Ok {| fields := <["bundleHash" := VStr "0xbeef"]> (<["coinbaseDiff" := VInt 7]> ∅);
        results := Some [ <["gasUsed" := VInt 21000]> ∅; <["gasUsed" := VInt 30000]> ∅ ] |}.

(** What simulating [Demo.bundle_mixed] on block 101 returns. *)
Definition sim_mixed : Simulation := {|
  bundleHash := VStr "0xbeef";
  coinbaseDiff := VInt 7;
  sim_results := [ <["gasUsed" := VInt 21000]> ∅; <["gasUsed" := VInt 30000]> ∅ ];
  signedBundledTransactions := Demo.out_mixed;
  totalGasUsed := 51000;
|}.

(** Alice, Bob, Alice: three signer entries with their own dictionaries,
    what signing them returns and leaves. *)
Definition bundle_two_senders : list (gmap string pyval) :=
  [Demo.signer_spec Demo.alice 0; Demo.signer_spec Demo.bob 1;
   Demo.signer_spec Demo.alice 2].
Definition out_two_senders : list bytes :=
  [[x02; x0a; x03]; [x02; x0b; x28]; [x02; x0a; x04]].
Definition heap_two_senders : gmap nat (gmap string pyval) :=
  <[2%nat := Demo.completed_transfer "0xA" 4]>
    (<[1%nat := Demo.completed_transfer "0xB" 40]>
       (<[0%nat := Demo.completed_transfer "0xA" 3]> Demo.heap0)).

(** A provider whose own headers already hold a signature header. *)
Definition base_headers : gmap string string :=
  <["Content-Type" := "application/json"]>
    (<["X-Flashbots-Signature" := "forged"]> ∅).
Definition posted : HttpRequest := {|
  http_method := "POST";
  url := "https://relay.flashbots.net";
  data := String.list_byte_of_string "eth_sendBundle";
  headers := <["X-Flashbots-Signature" := "0xA:sig(eth_sendBundle)"]> base_headers;
  kwargs := ∅;
|}.
End DemoMore.

(** * Properties *)

(** ** The error monad *)

Lemma bind_Ok {A B} (m : result A) (f : A → result B) (b : B) :
  m ≫= f = Ok b ↔ ∃ a, m = Ok a ∧ f a = Ok b.
Proof.
  destruct m as [a|e]; simpl; split.
  - intros H. by exists a.
  - by intros (a' & [= <-] & H).
  - intros H. discriminate H.
  - intros (a' & H & _). discriminate H.
Qed.

Lemma getitem_Ok (d : gmap string pyval) k v : getitem d k = Ok v ↔ d !! k = Some v.
Proof. unfold getitem. destruct (d !! k); split; congruence. Qed.

Lemma contains_true (d : gmap string pyval) k : contains d k = true ↔ is_Some (d !! k).
Proof. unfold contains. by rewrite bool_decide_eq_true. Qed.

Lemma contains_false (d : gmap string pyval) k : contains d k = false ↔ d !! k = None.
Proof.
  unfold contains. rewrite bool_decide_eq_false. by rewrite eq_None_not_Some.
Qed.

Lemma contains_Some (d : gmap string pyval) k v : d !! k = Some v → contains d k = true.
Proof. intros H. apply contains_true. by exists v. Qed.

(** Destructs the hypothesis [H : (x ← m; k) = Ok _]. *)
Tactic Notation "bind_inv" hyp(H) "as" ident(x) ident(Hx) :=
  apply bind_Ok in H as (x & Hx & H).

(** Decides on a concrete entry which of the three kinds it is. *)
Ltac demo_entry :=
  lazymatch goal with
  | |- is_decoded_entry _ =>
      repeat split; first [vm_compute; reflexivity | eexists; vm_compute; reflexivity]
  | |- is_signer_entry _ _ _ => repeat split; vm_compute; reflexivity
  | |- is_raw_entry _ _ => vm_compute; reflexivity
  end.

(** ** The loop of [sign_bundle] *)

Section SignLoop.
Context (c : Collaborators).

Lemma sign_loop_app st txs1 txs2 :
  Sync.sign_loop c st (txs1 ++ txs2) =
  st' ← Sync.sign_loop c st txs1; Sync.sign_loop c st' txs2.
Proof.
  revert st. induction txs1 as [|tx txs1 IH]; intros st; [done|].
  simpl. destruct (Sync.sign_tx c st tx) as [st1|e]; [apply IH | done].
Qed.

Lemma sign_loop_app_Ok st txs1 txs2 st2 :
  Sync.sign_loop c st (txs1 ++ txs2) = Ok st2 ↔
  ∃ st1, Sync.sign_loop c st txs1 = Ok st1 ∧ Sync.sign_loop c st1 txs2 = Ok st2.
Proof. by rewrite sign_loop_app, bind_Ok. Qed.

Lemma sign_loop_snoc_Ok st txs tx st2 :
  Sync.sign_loop c st (txs ++ [tx]) = Ok st2 ↔
  ∃ st1, Sync.sign_loop c st txs = Ok st1 ∧ Sync.sign_tx c st1 tx = Ok st2.
Proof.
  rewrite sign_loop_app_Ok. simpl.
  split; intros (st1 & H1 & H2); exists st1; split; try done.
  - by destruct (Sync.sign_tx c st1 tx).
  - by rewrite H2.
Qed.

Lemma sign_bundle_Ok txs h out h' :
  Sync.sign_bundle c txs h = Ok (out, h') ↔
  ∃ st, Sync.sign_loop c (sign_init h) txs = Ok st ∧
        signed_transactions st = out ∧ heap st = h'.
Proof.
  unfold Sync.sign_bundle. rewrite bind_Ok.
  split; intros (st & H1 & H2); exists st; split; try done.
  - by injection H2.
  - destruct H2 as [<- <-]. done.
Qed.

(** *** One entry *)

Lemma sign_raw_Ok st tx st' :
  sign_raw c st tx = Ok st' →
  ∃ b p n a, is_raw_entry tx b ∧ _parse_signed_tx c b = Ok p ∧
    p !! "nonce" = Some (VInt n) ∧ p !! "from" = Some (VStr a) ∧
    st' = {| nonces := <[a := n + 1]> (nonces st);
             signed_transactions := signed_transactions st ++ [b];
             heap := heap st |}.
Proof.
  unfold sign_raw. intros H.
  bind_inv H as v Hv. apply getitem_Ok in Hv.
  destruct v as [| | |b| | |]; try discriminate H.
  bind_inv H as p Hp. bind_inv H as nonce Hnonce. apply getitem_Ok in Hnonce.
  bind_inv H as next Hnext.
  destruct nonce as [|n| | | | |]; try discriminate Hnext.
  injection Hnext as <-.
  bind_inv H as sender Hsender. apply getitem_Ok in Hsender.
  destruct sender as [| |a| | | |]; try discriminate H.
  injection H as <-. by exists b, p, n, a.
Qed.

Lemma complete_tx_dict_Ok ledger a d d3 next :
  complete_tx_dict c ledger a d = Ok (d3, next) →
  ∃ n, next = n + 1 ∧
    d3 !! "nonce" = Some (VInt n) ∧
    d3 !! "from" = Some (VStr (address a)) ∧
    is_Some (d3 !! "gas") ∧
    (nonce_less d →
       ∃ count, get_transaction_count c (address a) = Ok count ∧
                n = default count (ledger !! address a)) ∧
    (¬ nonce_less d → d !! "nonce" = Some (VInt n)) ∧
    (is_Some (d !! "gas") → d3 !! "gas" = d !! "gas") ∧
    (∀ k, k ≠ "from"%string → k ≠ "nonce"%string → k ≠ "gas"%string →
          d3 !! k = d !! k).
Proof.
  unfold complete_tx_dict, nonce_less. intros H.
  bind_inv H as d2 Hd2. bind_inv H as nonce Hnonce. apply getitem_Ok in Hnonce.
  bind_inv H as nx Hnx. destruct nonce as [|n| | | | |]; try discriminate Hnx.
  injection Hnx as <-. bind_inv H as d3' Hd3. injection H as <- <-.
  exists n. split; [done|].
  assert (Hinv : d2 !! "from" = Some (VStr (address a)) ∧
            (∀ k, k ≠ "from"%string → k ≠ "nonce"%string → d2 !! k = d !! k) ∧
            (is_None (dict_get d "nonce") = true →
               ∃ count, get_transaction_count c (address a) = Ok count ∧
                        n = default count (ledger !! address a)) ∧
            (is_None (dict_get d "nonce") ≠ true → d !! "nonce" = Some (VInt n))).
  { unfold dict_get in *. rewrite lookup_insert_ne in Hd2 by done.
    destruct (is_None (default VNone (d !! "nonce"))) eqn:Hn.
    - bind_inv Hd2 as count Hcount. injection Hd2 as <-.
      rewrite lookup_insert_eq in Hnonce. injection Hnonce as <-.
      split_and!; [by simplify_map_eq| |by eauto|done].
      intros k ??. by simplify_map_eq.
    - injection Hd2 as <-. rewrite lookup_insert_ne in Hnonce by done.
      split_and!; [by simplify_map_eq| |done|done].
      intros k ??. by simplify_map_eq. }
  destruct Hinv as (Hfrom & Hframe & Hless & Hexp).
  destruct (contains d2 "gas") eqn:Hgas.
  - injection Hd3 as <-. apply contains_true in Hgas.
    split_and!; try done.
    + intros _. by apply Hframe.
    + intros k ???. by apply Hframe.
  - bind_inv Hd3 as gas Hest. injection Hd3 as <-. apply contains_false in Hgas.
    split_and!; try done.
    + by simplify_map_eq.
    + by simplify_map_eq.
    + by simplify_map_eq.
    + intros [g Hg]. rewrite Hframe in Hgas by done. congruence.
    + intros k ???. rewrite lookup_insert_ne by done. by apply Hframe.
Qed.
Lemma sign_signer_Ok st tx st' :
  sign_signer c st tx = Ok st' →
  ∃ a l d d3 next raw,
    tx !! "signer" = Some (VAccount a) ∧ tx !! "transaction" = Some (VRef l) ∧
    heap st !! l = Some d ∧
    complete_tx_dict c (nonces st) a d = Ok (d3, next) ∧
    sign_transaction c a d3 = Ok raw ∧
    st' = {| nonces := <[address a := next]> (nonces st);
             signed_transactions := signed_transactions st ++ [raw];
             heap := <[l := d3]> (heap st) |}.
Proof.
  unfold sign_signer. intros H.
  bind_inv H as signer Hsigner. apply getitem_Ok in Hsigner.
  bind_inv H as tx_dict Hdict. apply getitem_Ok in Hdict.
  destruct signer as [| | | | |a|]; try discriminate H.
  destruct tx_dict as [| | | | | |l]; try discriminate H.
  destruct (heap st !! l) as [d|] eqn:Hl; [|discriminate H].
  bind_inv H as completed Hcompleted. destruct completed as [d3 next].
  bind_inv H as raw Hraw. injection H as <-.
  by exists a, l, d, d3, next, raw.
Qed.

Lemma sign_decoded_Ok st tx st' :
  sign_decoded c st tx = Ok st' →
  ∃ raw, reencode c (heap st) tx = Ok raw ∧
    tx !! "hash" = Some (VBytes (keccak c raw)) ∧
    st' = {| nonces := nonces st;
             signed_transactions := signed_transactions st ++ [raw];
             heap := heap st |}.
Proof.
  unfold sign_decoded. intros H.
  bind_inv H as raw Hraw. bind_inv H as declared Hdeclared.
  apply getitem_Ok in Hdeclared.
  destruct (bytes_eq (keccak c raw) declared) eqn:Heq; [|discriminate H].
  injection H as <-. exists raw. split_and!; try done.
  destruct declared; try discriminate Heq. simpl in Heq.
  apply bool_decide_eq_true in Heq. by subst.
Qed.

Lemma forallb_vrs (tx : gmap string pyval) :
  forallb (contains tx) ["v"; "r"; "s"]%string = true ↔
  is_Some (tx !! "v") ∧ is_Some (tx !! "r") ∧ is_Some (tx !! "s").
Proof.
  simpl. rewrite !andb_true_iff, !contains_true. tauto.
Qed.

(** The four ways through the loop body of the synchronous module. *)
Lemma sign_tx_Ok st tx st' :
  Sync.sign_tx c st tx = Ok st' →
  (is_Some (tx !! "signed_transaction") ∧ sign_raw c st tx = Ok st') ∨
  (tx !! "signed_transaction" = None ∧ is_Some (tx !! "signer") ∧
     sign_signer c st tx = Ok st') ∨
  (is_decoded_entry tx ∧ sign_decoded c st tx = Ok st') ∨
  (recognised tx = false ∧ st' = st).
Proof.
  unfold Sync.sign_tx, recognised, is_decoded_entry. intros H.
  destruct (contains tx "signed_transaction") eqn:H1.
  { left. by apply contains_true in H1. }
  apply contains_false in H1.
  destruct (contains tx "signer") eqn:H2.
  { right; left. by apply contains_true in H2. }
  apply contains_false in H2.
  destruct (forallb (contains tx) ["v"; "r"; "s"]%string) eqn:H3.
  { right; right; left. apply forallb_vrs in H3. by destruct H3 as (?&?&?). }
  right; right; right. by injection H as <-.
Qed.

Lemma sign_tx_raw st tx b :
  is_raw_entry tx b → Sync.sign_tx c st tx = sign_raw c st tx.
Proof.
  intros H. unfold Sync.sign_tx. by rewrite (contains_Some _ _ _ H).
Qed.

Lemma sign_tx_signer st tx a l :
  is_signer_entry tx a l → Sync.sign_tx c st tx = sign_signer c st tx.
Proof.
  intros (H1 & H2 & _). unfold Sync.sign_tx.
  apply contains_false in H1. rewrite H1. by rewrite (contains_Some _ _ _ H2).
Qed.

Lemma sign_tx_decoded st tx :
  is_decoded_entry tx → Sync.sign_tx c st tx = sign_decoded c st tx.
Proof.
  intros (H1 & H2 & H3). unfold Sync.sign_tx.
  apply contains_false in H1, H2. rewrite H1, H2.
  apply forallb_vrs in H3. by rewrite H3.
Qed.

(** A recognised entry appends exactly one element, its own signed
    transaction. *)
Lemma sign_tx_appends st tx st' :
  recognised tx = true → Sync.sign_tx c st tx = Ok st' →
  ∃ raw, signed_transactions st' = signed_transactions st ++ [raw] ∧
         corresponds c st' tx raw.
Proof.
  intros Hrec H. unfold corresponds.
  apply sign_tx_Ok in H as [[H1 H]|[(H1 & H2 & H)|[[Hdec H]|[H _]]]].
  - apply sign_raw_Ok in H as (b & p & n & a & Hb & _ & _ & _ & ->).
    exists b. simpl. by rewrite (contains_Some _ _ _ Hb).
  - apply sign_signer_Ok in H as (a & l & d & d3 & next & raw & Ha & Hl & _ & _ & Hs & ->).
    exists raw. simpl. apply contains_false in H1. apply contains_true in H2.
    rewrite H1, H2. split; [done|].
    exists a, l, d3. apply contains_false in H1.
    split_and!; try done. by simplify_map_eq.
  - apply sign_decoded_Ok in H as (raw & Hraw & Hhash & ->).
    exists raw. simpl. pose proof Hdec as (H1 & H2 & _).
    apply contains_false in H1, H2. by rewrite H1, H2.
  - congruence.
Qed.

Lemma sign_loop_appends st txs st' :
  Forall (λ tx, recognised tx = true) txs →
  Sync.sign_loop c st txs = Ok st' →
  ∃ suffix, signed_transactions st' = signed_transactions st ++ suffix ∧
            length suffix = length txs.
Proof.
  intros Hrec. revert st. induction Hrec as [|tx txs Htx _ IH]; intros st H.
  - injection H as <-. exists []. by rewrite app_nil_r.
  - simpl in H. bind_inv H as st1 Hst1.
    apply sign_tx_appends in Hst1 as (raw & Hraw & _); [|done].
    apply IH in H as (suffix & -> & Hlen). exists (raw :: suffix).
    rewrite Hraw, <- app_assoc. simpl. by rewrite Hlen.
Qed.
End SignLoop.

(** ** The asynchronous signer

    Whenever the asynchronous signer returns, the synchronous one returns
    the same: they differ on dictionary-style and unrecognised entries
    only, on which the asynchronous one raises. *)

Lemma async_sign_tx_Ok (c : Collaborators) (st : sign_state)
    (tx : gmap string pyval) (st' : sign_state) :
  Async.sign_tx c st tx = Ok st' → Sync.sign_tx c st tx = Ok st'.
Proof.
  unfold Async.sign_tx, Sync.sign_tx.
  destruct (contains tx "signed_transaction"); [done|].
  destruct (contains tx "signer"); [done|]. intros H. discriminate H.
Qed.

Lemma async_sign_bundle_Ok (c : Collaborators) (txs : list (gmap string pyval))
    (h : gmap nat (gmap string pyval)) (r : list bytes * gmap nat (gmap string pyval)) :
  Async.sign_bundle c txs h = Ok r → Sync.sign_bundle c txs h = Ok r.
Proof.
  unfold Async.sign_bundle, Sync.sign_bundle. intros H.
  bind_inv H as st Hst. apply bind_Ok. exists st. split; [|done].
  clear H. revert Hst. generalize (sign_init h) as st0.
  induction txs as [|tx txs IH]; intros st0 H; [done|].
  simpl in *. bind_inv H as st1 Hst1.
  rewrite (async_sign_tx_Ok c _ _ _ Hst1). simpl. by apply IH.
Qed.

(** ** Order preservation *)

(** C1. When every entry of the bundle is of one of the three recognised
    kinds and [sign_bundle] returns, the returned list has one signed
    transaction per entry, and its element [i] is the signed transaction
    of entry [i], appended when the first [i + 1] entries (and no others)
    had been processed.  Nothing is reordered or dropped: identical
    entries each contribute their own element. *)
Theorem sign_bundle_order_preserving (c : Collaborators)
    (txs : list (gmap string pyval)) (h : gmap nat (gmap string pyval))
    (out : list bytes) (h' : gmap nat (gmap string pyval)) :
  Forall (λ tx, recognised tx = true) txs →
  Sync.sign_bundle c txs h = Ok (out, h') →
  length out = length txs ∧
  ∀ (i : nat) (tx : gmap string pyval), txs !! i = Some tx →
    ∃ st raw,
      Sync.sign_loop c (sign_init h) (take (S i) txs) = Ok st ∧
      signed_transactions st = take (S i) out ∧
      out !! i = Some raw ∧
      corresponds c st tx raw.
Proof.
  intros Hrec Hrun. apply sign_bundle_Ok in Hrun as (st & Hrun & <- & <-).
  split.
  { apply sign_loop_appends in Hrun as (suffix & -> & Hlen); done. }
  intros i tx Hi.
  pose proof (take_drop_middle txs i tx Hi) as Hsplit.
  rewrite <- Hsplit in Hrun, Hrec.
  apply Forall_app in Hrec as [Hrec1 Hrec2].
  apply Forall_cons in Hrec2 as [Htx Hrec2].
  rewrite (cons_middle tx), app_assoc in Hrun.
  apply sign_loop_app_Ok in Hrun as (sti & Hruni & Hrest).
  pose proof Hruni as Hruni'.
  apply sign_loop_snoc_Ok in Hruni as (sta & Hpre & Hstep).
  apply sign_loop_appends in Hpre as (pre & Hpre & Hprelen); [|done].
  apply sign_tx_appends in Hstep as (raw & Hraw & Hcorr); [|done].
  apply sign_loop_appends in Hrest as (suffix & Hsuffix & _); [|done].
  simpl in Hpre. rewrite Hpre in Hraw.
  assert (Hlen : length pre = i).
  { rewrite Hprelen, length_take. apply lookup_lt_Some in Hi. lia. }
  exists sti, raw. split_and!.
  - by rewrite (take_S_r _ _ _ Hi).
  - rewrite Hsuffix, Hraw. rewrite take_app_length'; [done|].
    rewrite length_app. simpl. lia.
  - rewrite Hsuffix, Hraw, <- app_assoc. simpl.
    rewrite <- Hlen. by rewrite list_lookup_middle.
  - done.
Qed.

Lemma sign_bundle_order_preserving_witness :
  Sync.sign_bundle Demo.w3 Demo.bundle_mixed Demo.heap0 =
    Ok (Demo.out_mixed, Demo.heap_mixed) ∧
  length Demo.out_mixed = length Demo.bundle_mixed.
Proof.
  assert (Hrun : Sync.sign_bundle Demo.w3 Demo.bundle_mixed Demo.heap0 =
            Ok (Demo.out_mixed, Demo.heap_mixed)) by (vm_compute; reflexivity).
  split; [exact Hrun|].
  refine (proj1 (sign_bundle_order_preserving Demo.w3 Demo.bundle_mixed Demo.heap0
                   Demo.out_mixed Demo.heap_mixed _ Hrun)).
  repeat (constructor; [vm_compute; reflexivity|]). constructor.
Defined.

(** ** Entries of no recognised kind *)

(** C2. The synchronous signer has no final [else]: on the bundle that
    holds only a dictionary of no recognised kind it returns the empty
    list and leaves the store alone, where the asynchronous signer raises
    [ValueError]. *)
Theorem sign_bundle_unsupported_skipped (c : Collaborators)
    (h : gmap nat (gmap string pyval)) :
  recognised Demo.unsupported_spec = false ∧
  Sync.sign_bundle c [Demo.unsupported_spec] h = Ok ([], h) ∧
  Async.sign_bundle c [Demo.unsupported_spec] h =
    Raise (ValueError "Unsupported transaction type in bundle").
Proof. by vm_compute. Qed.

(** ** Dictionary-style entries *)

(** The reconstruction of an entry is determined by the entry. *)
Lemma reconstructs_unique (c : Collaborators) (h : gmap nat (gmap string pyval))
    (tx d1 d2 : gmap string pyval) :
  reconstructs c h tx d1 → reconstructs c h tx d2 → d1 = d2.
Proof.
  intros ((_ & Hn1) & (i1 & b1 & Hi1 & Hb1 & Hd1) & (_ & Hv1) & (_ & Hg1) & Hfee1
          & Ha1 & Hc1 & Hto1 & Hdom1)
         ((_ & Hn2) & (i2 & b2 & Hi2 & Hb2 & Hd2) & (_ & Hv2) & (_ & Hg2) & Hfee2
          & Ha2 & Hc2 & Hto2 & Hdom2).
  assert (Hdata : d1 !! "data" = d2 !! "data").
  { rewrite Hi1 in Hi2. injection Hi2 as <-. rewrite Hb1 in Hb2. injection Hb2 as <-.
    by rewrite Hd1, Hd2. }
  assert (Hfee : d1 !! "maxFeePerGas" = d2 !! "maxFeePerGas" ∧
                 d1 !! "maxPriorityFeePerGas" = d2 !! "maxPriorityFeePerGas" ∧
                 d1 !! "gasPrice" = d2 !! "gasPrice").
  { destruct (contains tx "maxFeePerGas" || contains tx "maxPriorityFeePerGas").
    - destruct Hfee1 as (_ & _ & -> & -> & ->), Hfee2 as (_ & _ & -> & -> & ->). done.
    - destruct Hfee1 as (_ & -> & -> & ->), Hfee2 as (_ & -> & -> & ->). done. }
  destruct Hfee as (Hf1 & Hf2 & Hf3).
  assert (Hto : d1 !! "to" = d2 !! "to").
  { destruct (truthy h (dict_get tx "to")).
    - destruct Hto1 as (f1 & t1 & Hf1' & Ht1 & ->), Hto2 as (f2 & t2 & Hf2' & Ht2 & ->).
      rewrite Hf1' in Hf2'. injection Hf2' as <-. rewrite Ht1 in Ht2. by injection Ht2 as <-.
    - by rewrite Hto1, Hto2. }
  apply map_eq. intros k.
  destruct (decide (k ∈ unsigned_keys)) as [Hk|Hk].
  - unfold unsigned_keys in Hk.
    rewrite !elem_of_union, !elem_of_singleton in Hk.
    destruct Hk as [[[[[[[[[->| ->]| ->]| ->]| ->]| ->]| ->]| ->]| ->]| ->];
      congruence.
  - assert (d1 !! k = None) as -> by (apply not_elem_of_dom; auto).
    symmetry. apply not_elem_of_dom. auto.
Qed.

Lemma int_of_hex_bytes (r : bytes) : r ≠ [] → int_of_hex (VBytes r) = Ok (be_value r).
Proof. by destruct r. Qed.

Lemma truthy_dict_get (h : gmap nat (gmap string pyval)) (d : gmap string pyval)
    (k : string) :
  truthy h (dict_get d k) = true → d !! k = Some (dict_get d k).
Proof. unfold dict_get. by destruct (d !! k). Qed.

(** Proves that the dictionary built in one path through [reencode] is
    the reconstruction. *)
Ltac solve_reconstructs :=
  unfold reconstructs;
  repeat match goal with
         | H : contains _ _ || contains _ _ = _ |- _ => rewrite H; clear H
         | H : truthy _ _ = true |- _ =>
             rewrite H; apply truthy_dict_get in H
         | H : truthy _ _ = false |- _ => rewrite H; clear H
         end;
  repeat match goal with
         | |- _ ∧ _ => split
         | |- is_Some _ => eauto
         | |- ∃ _ _, _ ∧ _ ∧ _ => eexists _, _; split; [eassumption|]; split; [eassumption|]
         end;
  try (repeat rewrite lookup_insert_ne by done;
       first [rewrite lookup_insert_eq | rewrite lookup_empty]; congruence);
  try (apply elem_of_subseteq; intros k; unfold unsigned_keys;
       rewrite ?dom_insert, ?dom_empty, ?elem_of_union, ?elem_of_singleton,
         ?elem_of_empty; tauto).

(** [reencode] encodes the reconstruction of the entry with the entry's
    v and the integer values of its r and s. *)
Lemma reencode_intro (c : Collaborators) (h : gmap nat (gmap string pyval))
    (tx tx_dict : gmap string pyval) (v : pyval) (r s : bytes)
    (unsigned_tx : UnsignedTransaction c) :
  tx !! "v" = Some v → tx !! "r" = Some (VBytes r) → r ≠ [] →
  tx !! "s" = Some (VBytes s) → s ≠ [] →
  reconstructs c h tx tx_dict →
  serializable_unsigned_transaction_from_dict c tx_dict = Ok unsigned_tx →
  reencode c h tx = encode_transaction c unsigned_tx (v, be_value r, be_value s).
Proof.
  intros Hv Hr Hrne Hs Hsne Hrec Hu.
  assert (Hstep : ∃ d, reconstructs c h tx d ∧
            reencode c h tx =
              (u ← serializable_unsigned_transaction_from_dict c d;
               encode_transaction c u (v, be_value r, be_value s))).
  { pose proof Hrec as ((Hnonce & _) & (input & data & Hinput & Hdata & _)
        & (Hvalue & _) & (Hgas & _) & Hfee & _ & _ & Hto & _).
    destruct Hnonce as [nonce Hnonce], Hvalue as [value Hvalue], Hgas as [gas Hgas].
    unfold reencode.
    rewrite (proj2 (getitem_Ok _ _ _) Hv), (proj2 (getitem_Ok _ _ _) Hr),
      (proj2 (getitem_Ok _ _ _) Hs), (proj2 (getitem_Ok _ _ _) Hnonce),
      (proj2 (getitem_Ok _ _ _) Hinput), (proj2 (getitem_Ok _ _ _) Hvalue),
      (proj2 (getitem_Ok _ _ _) Hgas).
    cbn [mbind result_bind mret result_ret].
    rewrite (int_of_hex_bytes r Hrne), (int_of_hex_bytes s Hsne), Hdata.
    cbn [mbind result_bind mret result_ret].
    destruct (contains tx "maxFeePerGas" || contains tx "maxPriorityFeePerGas") eqn:Hfeeb.
    - destruct Hfee as ([fee Hfee1] & [tip Hfee2] & _).
      rewrite (contains_Some _ _ _ Hfee1), (contains_Some _ _ _ Hfee2).
      rewrite (proj2 (getitem_Ok _ _ _) Hfee1), (proj2 (getitem_Ok _ _ _) Hfee2).
      cbn [andb mbind result_bind mret result_ret].
      destruct (truthy h (dict_get tx "accessList")) eqn:Hal;
        destruct (truthy h (dict_get tx "chainId")) eqn:Hci;
        destruct (truthy h (dict_get tx "to")) eqn:Htob;
        try (destruct Hto as (to_field & to & Hto1 & Hto2 & _);
             rewrite (proj2 (getitem_Ok _ _ _) Hto1);
             cbn [mbind result_bind mret result_ret]; rewrite Hto2);
        cbn [mbind result_bind mret result_ret];
        (eexists; split; [|reflexivity]); solve_reconstructs.
    - destruct Hfee as ([price Hprice] & _).
      rewrite (contains_Some _ _ _ Hprice), (proj2 (getitem_Ok _ _ _) Hprice).
      cbn [mbind result_bind mret result_ret].
      destruct (truthy h (dict_get tx "accessList")) eqn:Hal;
        destruct (truthy h (dict_get tx "chainId")) eqn:Hci;
        destruct (truthy h (dict_get tx "to")) eqn:Htob;
        try (destruct Hto as (to_field & to & Hto1 & Hto2 & _);
             rewrite (proj2 (getitem_Ok _ _ _) Hto1);
             cbn [mbind result_bind mret result_ret]; rewrite Hto2);
        cbn [mbind result_bind mret result_ret];
        (eexists; split; [|reflexivity]); solve_reconstructs. }
  destruct Hstep as (d & Hd & ->).
  rewrite (reconstructs_unique c h tx d tx_dict Hd Hrec), Hu. done.
Qed.

(** C5. A dictionary-style entry whose unsigned transaction is
    reconstructed as [tx_dict] from its non-signature fields (see
    [reconstructs]) and encoded with the entry's [v] and the integer
    values of its [r] and [s] into [raw]: when the hash of [raw] differs
    from the hash the entry declares, the call raises the assertion error
    and returns nothing; when they agree, [raw] is appended, and ledger
    and store stay as they were. *)
Theorem sign_bundle_decoded_hash_check (c : Collaborators)
    (h : gmap nat (gmap string pyval)) (pre post : list (gmap string pyval))
    (tx tx_dict : gmap string pyval) (st : sign_state) (v : pyval) (r s : bytes)
    (unsigned_tx : UnsignedTransaction c) (raw : bytes) (declared : pyval) :
  Sync.sign_loop c (sign_init h) pre = Ok st →
  is_decoded_entry tx →
  tx !! "v" = Some v →
  tx !! "r" = Some (VBytes r) → r ≠ [] →
  tx !! "s" = Some (VBytes s) → s ≠ [] →
  reconstructs c (heap st) tx tx_dict →
  serializable_unsigned_transaction_from_dict c tx_dict = Ok unsigned_tx →
  encode_transaction c unsigned_tx (v, be_value r, be_value s) = Ok raw →
  tx !! "hash" = Some declared →
  (bytes_eq (keccak c raw) declared = false →
     Sync.sign_bundle c (pre ++ tx :: post) h = Raise AssertionError) ∧
  (bytes_eq (keccak c raw) declared = true →
     Sync.sign_loop c (sign_init h) (pre ++ [tx]) =
       Ok {| nonces := nonces st;
             signed_transactions := signed_transactions st ++ [raw];
             heap := heap st |}).
Proof.
  intros Hpre Hdec Hv Hr Hrne Hs Hsne Hrec Hu Henc Hhash.
  assert (Hraw : reencode c (heap st) tx = Ok raw).
  { by rewrite (reencode_intro c (heap st) tx tx_dict v r s unsigned_tx). }
  assert (Hstep : Sync.sign_tx c st tx =
            if bytes_eq (keccak c raw) declared
            then Ok {| nonces := nonces st;
                       signed_transactions := signed_transactions st ++ [raw];
                       heap := heap st |}
            else Raise AssertionError).
  { rewrite sign_tx_decoded by done. unfold sign_decoded.
    rewrite Hraw. simpl. apply getitem_Ok in Hhash. by rewrite Hhash. }
  split; intros Heq; rewrite Heq in Hstep.
  - unfold Sync.sign_bundle. rewrite sign_loop_app, Hpre. simpl.
    by rewrite Hstep.
  - rewrite sign_loop_app, Hpre. simpl. by rewrite Hstep.
Qed.

(** The reconstruction of a demo entry, field by field. *)
Ltac demo_reconstructs :=
  unfold reconstructs;
  repeat match goal with
         | |- if ?b then _ else _ =>
             let b' := eval vm_compute in b in change b with b'; cbv iota
         | |- _ ∧ _ => split
         | |- is_Some _ => eexists; vm_compute; reflexivity
         | |- ∃ _ _, _ ∧ _ ∧ _ =>
             eexists _, _; split; [vm_compute; reflexivity|];
             split; vm_compute; reflexivity
         | |- _ ⊆ _ => apply (bool_decide_unpack _); vm_compute; exact I
         | |- _ => vm_compute; reflexivity
         end.

Lemma sign_bundle_decoded_hash_check_witness :
  Sync.sign_bundle Demo.w3
    ([Demo.raw_spec Demo.raw_alice_5] ++
       Demo.decoded_spec "0xB" 7 Demo.raw_alice_5 :: [Demo.signer_spec Demo.bob 1])
    Demo.heap0 = Raise AssertionError ∧
  Sync.sign_loop Demo.w3 (sign_init Demo.heap0)
    ([Demo.raw_spec Demo.raw_alice_5] ++ [Demo.decoded_spec "0xB" 7 Demo.hash_7]) =
    Ok {| nonces := <["0xA"%string := 6]> ∅;
          signed_transactions := [Demo.raw_alice_5] ++ [Demo.reencoded_7];
          heap := Demo.heap0 |}.
Proof.
  split.
  - refine (proj1 (sign_bundle_decoded_hash_check Demo.w3 Demo.heap0
              [Demo.raw_spec Demo.raw_alice_5] [Demo.signer_spec Demo.bob 1]
              (Demo.decoded_spec "0xB" 7 Demo.raw_alice_5) Demo.unsigned_7
              {| nonces := <["0xA"%string := 6]> ∅;
                 signed_transactions := [Demo.raw_alice_5];
                 heap := Demo.heap0 |}
              (VInt 27) [x07] [x09] Demo.unsigned_7
              Demo.reencoded_7 (VBytes Demo.raw_alice_5) _ _ _ _ _ _ _ _ _ _ _) _);
      first [demo_entry | done | demo_reconstructs].
  - refine (proj2 (sign_bundle_decoded_hash_check Demo.w3 Demo.heap0
              [Demo.raw_spec Demo.raw_alice_5] []
              (Demo.decoded_spec "0xB" 7 Demo.hash_7) Demo.unsigned_7
              {| nonces := <["0xA"%string := 6]> ∅;
                 signed_transactions := [Demo.raw_alice_5];
                 heap := Demo.heap0 |}
              (VInt 27) [x07] [x09] Demo.unsigned_7
              Demo.reencoded_7 (VBytes Demo.hash_7) _ _ _ _ _ _ _ _ _ _ _) _);
      first [demo_entry | done | demo_reconstructs].
Defined.

(** ** Timestamp extrapolation *)

(** C6. [extrapolate_timestamp b h] raises when [b < h]; when the head
    block [h] is known with timestamp [t_h] it returns
    [t_h + (b - h) * 12] for every [b >= h], which is [t_h] at [b = h] and
    [t_h + 12] at [b = h + 1]. *)
Theorem extrapolate_timestamp_spec (c : Collaborators) (b h : Z) :
  (b < h →
     extrapolate_timestamp c b h = Raise (Exception "block extrapolation negative")) ∧
  (∀ (block : gmap string pyval) (t_h : Z),
     get_block c h = Ok block → block !! "timestamp" = Some (VInt t_h) →
     (h ≤ b → extrapolate_timestamp c b h = Ok (t_h + (b - h) * 12)) ∧
     (b = h → extrapolate_timestamp c b h = Ok t_h) ∧
     (b = h + 1 → extrapolate_timestamp c b h = Ok (t_h + 12))).
Proof.
  unfold extrapolate_timestamp, SECONDS_PER_BLOCK. split.
  - intros Hlt. by rewrite (proj2 (Z.ltb_lt _ _)) by lia.
  - intros block t_h Hblock Hts.
    assert (Hge : h ≤ b → extrapolate_timestamp c b h = Ok (t_h + (b - h) * 12)).
    { intros Hle. unfold extrapolate_timestamp, SECONDS_PER_BLOCK.
      rewrite (proj2 (Z.ltb_ge _ _)) by lia. rewrite Hblock. simpl.
      apply getitem_Ok in Hts. by rewrite Hts. }
    unfold extrapolate_timestamp, SECONDS_PER_BLOCK in Hge.
    split_and!; [done| |]; intros ->; rewrite Hge by lia; f_equal; lia.
Qed.

Lemma extrapolate_timestamp_spec_witness :
  extrapolate_timestamp Demo.w3 99 100 =
    Raise (Exception "block extrapolation negative") ∧
  extrapolate_timestamp Demo.w3 103 100 = Ok (1700001200 + (103 - 100) * 12) ∧
  extrapolate_timestamp Demo.w3 100 100 = Ok 1700001200 ∧
  extrapolate_timestamp Demo.w3 101 100 = Ok (1700001200 + 12).
Proof.
  split; [apply (proj1 (extrapolate_timestamp_spec Demo.w3 99 100)); lia|].
  split; [|split].
  - refine (proj1 (proj2 (extrapolate_timestamp_spec Demo.w3 103 100)
                     _ 1700001200 eq_refl _) _); [by vm_compute|lia].
  - refine (proj1 (proj2 (proj2 (extrapolate_timestamp_spec Demo.w3 100 100)
                     _ 1700001200 eq_refl _)) _); [by vm_compute|lia].
  - refine (proj2 (proj2 (proj2 (extrapolate_timestamp_spec Demo.w3 101 100)
                     _ 1700001200 eq_refl _)) _); [by vm_compute|lia].
Defined.

(** ** The bundle hash *)

Lemma fold_left_app_concat {A} (xs : list (list A)) (x : list A) :
  fold_left (λ a b, a ++ b) xs x = x ++ concat xs.
Proof.
  revert x. induction xs as [|y xs IH]; intros x; simpl.
  - by rewrite app_nil_r.
  - by rewrite IH, app_assoc.
Qed.

(** Chunks of one fixed length can be read back from their
    concatenation. *)
Lemma concat_fixed_length_inj {A} (n : nat) (l1 l2 : list (list A)) :
  Forall (λ x, length x = n) l1 → Forall (λ x, length x = n) l2 →
  length l1 = length l2 → concat l1 = concat l2 → l1 = l2.
Proof.
  intros H1. revert l2. induction H1 as [|x l1 Hx _ IH]; intros l2 H2 Hlen Hcat.
  - destruct l2; [done|discriminate Hlen].
  - destruct H2 as [|y l2 Hy H2]; [discriminate Hlen|].
    simpl in Hcat. apply app_inj_1 in Hcat as [-> Hcat]; [|congruence].
    f_equal. apply IH; [done| |done]. simpl in Hlen. lia.
Qed.

Lemma bundle_hash_nonempty (c : Collaborators) (txs : list bytes) (target : Z) :
  txs ≠ [] →
  FlashbotsBundleResponse.bundle_hash c (FlashbotsBundleResponse.init c txs target) =
    Ok (keccak c (concat (map (keccak c) txs))).
Proof.
  intros Hne. unfold FlashbotsBundleResponse.bundle_hash, FlashbotsBundleResponse.init.
  simpl. rewrite map_map. simpl.
  destruct txs as [|tx txs]; [done|]. simpl.
  by rewrite fold_left_app_concat.
Qed.

(** C7. For a non-empty list of signed transactions [bundle_hash] is the
    hash of the concatenation of the transactions' hashes in bundle
    order; it depends on nothing but the transactions; and two different
    orderings of the same transactions get different bundle hashes,
    provided the hash function returns 32 bytes and does not collide on
    the transactions and on the two concatenations. *)
Theorem bundle_hash_spec (c : Collaborators) :
  (∀ (txs : list bytes) (target : Z), txs ≠ [] →
     FlashbotsBundleResponse.bundle_hash c (FlashbotsBundleResponse.init c txs target) =
       Ok (keccak c (concat (map (keccak c) txs)))) ∧
  (∀ (txs : list bytes) (target1 target2 : Z),
     FlashbotsBundleResponse.bundle_hash c (FlashbotsBundleResponse.init c txs target1) =
     FlashbotsBundleResponse.bundle_hash c (FlashbotsBundleResponse.init c txs target2)) ∧
  (∀ (txs1 txs2 : list bytes) (target : Z),
     txs1 ≡ₚ txs2 → txs1 ≠ txs2 →
     (∀ x, length (keccak c x) = 32%nat) →
     (∀ x y, x ∈ txs1 → y ∈ txs1 → keccak c x = keccak c y → x = y) →
     (keccak c (concat (map (keccak c) txs1)) = keccak c (concat (map (keccak c) txs2)) →
        concat (map (keccak c) txs1) = concat (map (keccak c) txs2)) →
     FlashbotsBundleResponse.bundle_hash c (FlashbotsBundleResponse.init c txs1 target) ≠
     FlashbotsBundleResponse.bundle_hash c (FlashbotsBundleResponse.init c txs2 target)).
Proof.
  split_and!.
  - apply bundle_hash_nonempty.
  - done.
  - intros txs1 txs2 target Hperm Hne Hlen Hinj Hcat Heq.
    assert (Hne1 : txs1 ≠ []).
    { intros ->. apply Permutation_nil_l in Hperm. by subst. }
    assert (Hne2 : txs2 ≠ []).
    { intros ->. apply Permutation_nil_r in Hperm. by subst. }
    rewrite !bundle_hash_nonempty in Heq by done.
    injection Heq as Heq. apply Hcat in Heq.
    apply (concat_fixed_length_inj 32) in Heq.
    + apply Hne. clear Hne Hcat Hne1 Hne2.
      assert (Hsub : ∀ y, y ∈ txs2 → y ∈ txs1) by (intros y; by rewrite Hperm).
      clear Hperm. revert txs2 Heq Hsub.
      induction txs1 as [|x txs1 IH]; intros [|y txs2] Heq Hsub; try done.
      injection Heq as Hxy Heq.
      apply Hinj in Hxy as ->; [|by left|apply Hsub; by left].
      f_equal. apply IH; [|done|].
      * intros a b Ha Hb. apply Hinj; by right.
      * intros a Ha. assert (Ha' : a ∈ y :: txs1) by (apply Hsub; by right).
        apply elem_of_cons in Ha' as [->|Ha']; [|done].
        (* [a] is the head; it occurs in the tail of [txs2], hence its
           hash occurs in the tail of the hash list of [txs1]. *)
        apply (list_elem_of_fmap_2 (keccak c)) in Ha.
        change (map (keccak c) txs2) with (keccak c <$> txs2) in Heq.
        change (map (keccak c) txs1) with (keccak c <$> txs1) in Heq.
        rewrite <- Heq in Ha. apply list_elem_of_fmap in Ha as (z & Hz & Hzin).
        apply Hinj in Hz as ->; [done|by left|by right].
    + clear -Hlen. induction txs1; simpl; constructor; auto.
    + clear -Hlen. induction txs2; simpl; constructor; auto.
    + rewrite !length_map. by apply Permutation_length.
Qed.

Lemma demo_keccak_length (x : bytes) : length (Demo.demo_keccak x) = 32%nat.
Proof.
  unfold Demo.demo_keccak.
  rewrite length_take, length_app, length_replicate. lia.
Qed.

Lemma bundle_hash_spec_witness :
  FlashbotsBundleResponse.bundle_hash Demo.w3
    (FlashbotsBundleResponse.init Demo.w3 [Demo.raw_alice_5; Demo.reencoded_7] 100) ≠
  FlashbotsBundleResponse.bundle_hash Demo.w3
    (FlashbotsBundleResponse.init Demo.w3 [Demo.reencoded_7; Demo.raw_alice_5] 100).
Proof.
  apply (proj2 (proj2 (bundle_hash_spec Demo.w3))).
  - apply perm_swap.
  - discriminate.
  - apply demo_keccak_length.
  - intros x y Hx Hy.
    apply elem_of_cons in Hx as [->|Hx]; [|apply list_elem_of_singleton in Hx as ->];
    (apply elem_of_cons in Hy as [->|Hy]; [|apply list_elem_of_singleton in Hy as ->]);
    first [done | intros H; vm_compute in H; discriminate H].
  - intros H. vm_compute in H. discriminate H.
Defined.

(** ** The private-transaction tracker *)

Section PrivateTransaction.
Import FlashbotsPrivateTransactionResponse.
Context (chain : nat → ChainView) (self : t) (height : nat → Z).
Hypothesis never_found :
  ∀ k, get_transaction (chain k) (hash (tx self)) = Raise TransactionNotFound.
Hypothesis heights : ∀ k, block_number (chain k) = Ok (height k).

(** The loop started in iteration [s] returns in iteration [k] exactly
    when [k] is the first iteration from [s] on that sees a height above
    the maximum, and the fuel reaches that far. *)
Lemma wait_from_never_found (fuel s k : nat) (r : result bool) :
  wait_from chain self fuel s = Some (k, r) ↔
  r = Ok false ∧ max_block_number self < height k ∧
  (s ≤ k < s + fuel)%nat ∧
  ∀ j, (s ≤ j < k)%nat → height j ≤ max_block_number self.
Proof.
  revert s. induction fuel as [|fuel IH]; intros s; simpl.
  { split; [done|]. intros (_ & _ & ? & _). lia. }
  rewrite never_found, heights.
  destruct (max_block_number self <? height s) eqn:Hs.
  - apply Z.ltb_lt in Hs. split.
    + intros [= <- <-]. split_and!; first [done | lia | intros j ?; lia].
    + intros (-> & Hk & Hrange & Hfirst).
      destruct (decide (k = s)) as [->|Hne]; [done|].
      specialize (Hfirst s). lia.
  - apply Z.ltb_ge in Hs. rewrite IH. split.
    + intros (-> & Hk & Hrange & Hfirst).
      split; [done|]. split; [done|]. split; [lia|].
      intros j Hj. destruct (decide (j = s)) as [->|Hne]; [done|].
      apply Hfirst. lia.
    + intros (-> & Hk & Hrange & Hfirst).
      split; [done|]. split; [done|]. split.
      * destruct (decide (k = s)) as [->|Hne]; lia.
      * intros j Hj. apply Hfirst. lia.
Qed.
End PrivateTransaction.

(** The loop started in iteration [s] returns [True] in the first
    iteration [k] whose lookup succeeds, provided the earlier ones saw
    the transaction missing and the height not above the maximum. *)
Lemma wait_from_found (chain : nat → ChainView)
    (self : FlashbotsPrivateTransactionResponse.t) (found : gmap string pyval)
    (fuel s k : nat) :
  (s ≤ k < s + fuel)%nat →
  get_transaction (chain k) (hash (FlashbotsPrivateTransactionResponse.tx self)) =
    Ok found →
  (∀ j, (s ≤ j < k)%nat →
     get_transaction (chain j) (hash (FlashbotsPrivateTransactionResponse.tx self)) =
       Raise TransactionNotFound ∧
     ∃ n, block_number (chain j) = Ok n ∧
          n ≤ FlashbotsPrivateTransactionResponse.max_block_number self) →
  FlashbotsPrivateTransactionResponse.wait_from chain self fuel s = Some (k, Ok true).
Proof.
  revert s. induction fuel as [|fuel IH]; intros s Hrange Hfound Hbefore; [lia|].
  simpl. destruct (decide (s = k)) as [->|Hne].
  - by rewrite Hfound.
  - destruct (Hbefore s) as (-> & n & -> & Hn); [lia|].
    apply Z.ltb_ge in Hn. rewrite Hn. apply IH; [lia|done|].
    intros j Hj. apply Hbefore. lia.
Qed.

(** C8. When the transaction is never found and the chain height can be
    read, [wait] returns [False] in iteration [k] exactly when [k] is the
    first iteration that observes a height strictly above
    [max_block_number] (and the loop is given more than [k] iterations): it
    stops there, and [receipt] then returns [None] without raising.
    When the lookup succeeds in iteration [k] (before that the transaction
    was missing and the height not above the maximum), [wait] returns
    [True] there and [receipt] returns what fetching the receipt in that
    iteration gives.  Whatever the chain does, [receipt] returns a receipt
    only if [wait] returned [True] because the transaction was found, and
    it is the receipt fetched for its hash. *)
Theorem private_transaction_wait_spec (chain : nat → ChainView)
    (self : FlashbotsPrivateTransactionResponse.t) :
  (∀ height : nat → Z,
     (∀ k, get_transaction (chain k)
             (hash (FlashbotsPrivateTransactionResponse.tx self)) =
           Raise TransactionNotFound) →
     (∀ k, block_number (chain k) = Ok (height k)) →
     ∀ (fuel k : nat) (r : result bool),
       (FlashbotsPrivateTransactionResponse.wait chain self fuel = Some (k, r) ↔
          r = Ok false ∧
          FlashbotsPrivateTransactionResponse.max_block_number self < height k ∧
          (k < fuel)%nat ∧
          ∀ j, (j < k)%nat →
               height j ≤ FlashbotsPrivateTransactionResponse.max_block_number self) ∧
       (FlashbotsPrivateTransactionResponse.wait chain self fuel = Some (k, r) →
          FlashbotsPrivateTransactionResponse.receipt chain self fuel = Some (Ok None))) ∧
  (∀ (fuel k : nat) (found : gmap string pyval),
     (k < fuel)%nat →
     get_transaction (chain k)
       (hash (FlashbotsPrivateTransactionResponse.tx self)) = Ok found →
     (∀ j, (j < k)%nat →
        get_transaction (chain j)
          (hash (FlashbotsPrivateTransactionResponse.tx self)) =
          Raise TransactionNotFound ∧
        ∃ n, block_number (chain j) = Ok n ∧
             n ≤ FlashbotsPrivateTransactionResponse.max_block_number self) →
     FlashbotsPrivateTransactionResponse.wait chain self fuel = Some (k, Ok true) ∧
     FlashbotsPrivateTransactionResponse.receipt chain self fuel =
       Some (match get_transaction_receipt (chain k)
                     (hash (FlashbotsPrivateTransactionResponse.tx self)) with
             | Ok rc => Ok (Some rc)
             | Raise e => Raise e
             end)) ∧
  (∀ (fuel : nat) (rc : gmap string pyval),
     FlashbotsPrivateTransactionResponse.receipt chain self fuel = Some (Ok (Some rc)) →
     ∃ k found,
       FlashbotsPrivateTransactionResponse.wait chain self fuel = Some (k, Ok true) ∧
       get_transaction (chain k)
         (hash (FlashbotsPrivateTransactionResponse.tx self)) = Ok found ∧
       get_transaction_receipt (chain k)
         (hash (FlashbotsPrivateTransactionResponse.tx self)) = Ok rc).
Proof.
  split; [|split].
  - intros height Hnever Hheights fuel k r.
    unfold FlashbotsPrivateTransactionResponse.receipt,
      FlashbotsPrivateTransactionResponse.wait.
    split.
    + rewrite (wait_from_never_found chain self height Hnever Hheights).
      split; intros (-> & Hk & Hrange & Hfirst);
        (split; [done|]); (split; [done|]); (split; [lia|]);
        intros j Hj; apply Hfirst; lia.
    + intros Hw. pose proof Hw as Hw'.
      apply (wait_from_never_found chain self height Hnever Hheights) in Hw'.
      destruct Hw' as (-> & _). by rewrite Hw.
  - intros fuel k found Hk Hfound Hbefore.
    assert (Hw : FlashbotsPrivateTransactionResponse.wait chain self fuel =
                 Some (k, Ok true)).
    { apply (wait_from_found chain self found); [lia|done|].
      intros j Hj. apply Hbefore. lia. }
    split; [done|].
    unfold FlashbotsPrivateTransactionResponse.receipt. rewrite Hw.
    by destruct (get_transaction_receipt (chain k) _).
  - intros fuel rc. unfold FlashbotsPrivateTransactionResponse.receipt,
      FlashbotsPrivateTransactionResponse.wait.
    generalize 0%nat as s.
    induction fuel as [|fuel IH]; intros s; simpl; [done|].
    destruct (get_transaction (chain s) _) as [found|e] eqn:Hget.
    + intros H. injection H as H. bind_inv H as rc' Hrc. injection H as ->.
      by exists s, found.
    + destruct e; try done.
      destruct (block_number (chain s)) as [n|e]; [|done].
      destruct (_ <? n); [done|]. apply IH.
Qed.

Lemma private_transaction_wait_spec_witness :
  (FlashbotsPrivateTransactionResponse.wait Demo.silent_chain
     (FlashbotsPrivateTransactionResponse.init Demo.w3 Demo.raw_alice_5 102) 10 =
     Some (3%nat, Ok false) ∧
   FlashbotsPrivateTransactionResponse.receipt Demo.silent_chain
     (FlashbotsPrivateTransactionResponse.init Demo.w3 Demo.raw_alice_5 102) 10 =
     Some (Ok None)) ∧
  (FlashbotsPrivateTransactionResponse.wait Demo.mining_chain
     (FlashbotsPrivateTransactionResponse.init Demo.w3 Demo.raw_alice_5 105) 10 =
     Some (2%nat, Ok true) ∧
   FlashbotsPrivateTransactionResponse.receipt Demo.mining_chain
     (FlashbotsPrivateTransactionResponse.init Demo.w3 Demo.raw_alice_5 105) 10 =
     Some (Ok (Some (<["status" := VInt 1]> ∅)))).
Proof.
  split.
  - pose proof (proj1 (private_transaction_wait_spec Demo.silent_chain
      (FlashbotsPrivateTransactionResponse.init Demo.w3 Demo.raw_alice_5 102))
      (λ k, 100 + Z.of_nat k) (λ _, eq_refl) (λ _, eq_refl) 10%nat 3%nat (Ok false))
      as [Hwait Hreceipt].
    assert (Hw : FlashbotsPrivateTransactionResponse.wait Demo.silent_chain
      (FlashbotsPrivateTransactionResponse.init Demo.w3 Demo.raw_alice_5 102) 10 =
      Some (3%nat, Ok false)).
    { apply Hwait. simpl. split_and!; [done|lia|lia|intros j Hj; lia]. }
    split; [exact Hw|exact (Hreceipt Hw)].
  - refine (proj1 (proj2 (private_transaction_wait_spec Demo.mining_chain
      (FlashbotsPrivateTransactionResponse.init Demo.w3 Demo.raw_alice_5 105)))
      10%nat 2%nat (<["blockNumber" := VInt 102]> ∅) _ eq_refl _); [lia|].
    intros j Hj. destruct j as [|[|j]]; [| |lia].
    + split; [reflexivity|]. exists 100. split; [reflexivity|]. simpl. lia.
    + split; [reflexivity|]. exists 101. split; [reflexivity|]. simpl. lia.
Defined.

(** ** The nonce ledger and the completed dictionaries *)

Section Ledger.
Context (c : Collaborators).

Lemma nonce_less_dec (d : gmap string pyval) : nonce_less d ∨ ¬ nonce_less d.
Proof. unfold nonce_less. destruct (is_None _); [by left | by right]. Qed.


Lemma completes_refl d : completes d d.
Proof. by split_and!. Qed.

Lemma completes_trans d1 d2 d3 : completes d1 d2 → completes d2 d3 → completes d1 d3.
Proof.
  intros (Hk & Hn & Hg) (Hk' & Hn' & Hg'). split_and!.
  - intros k ???. by rewrite Hk', Hk.
  - intros Hless. rewrite <- Hn by done. apply Hn'.
    unfold nonce_less, dict_get in *. by rewrite Hn.
  - intros Hgas. rewrite <- Hg by done. apply Hg'. by rewrite Hg.
Qed.

(** A signer entry, processed: its dictionary is completed in place and
    signed, and the ledger entry of the signer is advanced. *)
Lemma sign_tx_signer_Ok st tx a l st' :
  is_signer_entry tx a l → Sync.sign_tx c st tx = Ok st' →
  ∃ d d' n raw,
    heap st !! l = Some d ∧
    heap st' = <[l := d']> (heap st) ∧
    nonces st' = <[address a := n + 1]> (nonces st) ∧
    signed_transactions st' = signed_transactions st ++ [raw] ∧
    signed_with c a d' n raw ∧
    completed (address a) d' ∧ completes d d' ∧
    (nonce_less d →
       ∃ count, get_transaction_count c (address a) = Ok count ∧
                n = default count (nonces st !! address a)) ∧
    (¬ nonce_less d → d !! "nonce" = Some (VInt n)).
Proof.
  intros Hentry H. rewrite (sign_tx_signer c st tx a l Hentry) in H.
  destruct Hentry as (_ & Ha & Hl).
  apply sign_signer_Ok in H
    as (a' & l' & d & d3 & next & raw & Ha' & Hl' & Hd & Hcomplete & Hsign & ->).
  rewrite Ha in Ha'. rewrite Hl in Hl'. injection Ha' as <-. injection Hl' as <-.
  apply complete_tx_dict_Ok in Hcomplete
    as (n & -> & Hn & Hfrom & Hgas & Hless & Hexp & Hgas' & Hframe).
  exists d, d3, n, raw. simpl. split_and!; try done.
  - split_and!; [done| by exists n |done].
  - split_and!; [done| |done].
    intros Hnl. rewrite Hn. symmetry. by apply Hexp.
Qed.

(** Every step relates each dictionary of the store to itself or, for
    the dictionary of a signer entry, to its completion. *)
Lemma sign_tx_heap st tx st' l :
  Sync.sign_tx c st tx = Ok st' →
  heap st' !! l = heap st !! l ∨
  ∃ a d d', is_signer_entry tx a l ∧ heap st !! l = Some d ∧
            heap st' !! l = Some d' ∧ completed (address a) d' ∧ completes d d'.
Proof.
  intros H. pose proof H as H'.
  apply sign_tx_Ok in H as [[H1 H]|[(H1 & H2 & H)|[[Hdec H]|[_ ->]]]].
  - apply sign_raw_Ok in H as (b & p & n & a & _ & _ & _ & _ & ->). by left.
  - apply sign_signer_Ok in H
      as (a & l0 & d & d3 & next & raw & Ha & Hl & Hd & _ & _ & _).
    assert (Hentry : is_signer_entry tx a l0) by done.
    apply (sign_tx_signer_Ok st tx a l0 st' Hentry) in H'
      as (d0 & d' & n & raw' & Hd0 & -> & _ & _ & _ & Hcompleted & Hcompletes & _).
    destruct (decide (l0 = l)) as [->|Hne].
    + right. exists a, d0, d'. split_and!; try done. by simplify_map_eq.
    + left. by rewrite lookup_insert_ne.
  - apply sign_decoded_Ok in H as (raw & _ & _ & ->). by left.
  - by left.
Qed.

Lemma sign_loop_heap st txs st' l :
  Sync.sign_loop c st txs = Ok st' →
  option_Forall2 completes (heap st !! l) (heap st' !! l).
Proof.
  revert st. induction txs as [|tx txs IH]; intros st H.
  - injection H as <-. destruct (heap st !! l); constructor. apply completes_refl.
  - simpl in H. bind_inv H as st1 Hst1. apply IH in H.
    apply (sign_tx_heap _ _ _ l) in Hst1 as [Heq|(a & d & d' & _ & Hd & Hd' & _ & Hc)].
    + by rewrite <- Heq.
    + rewrite Hd. rewrite Hd' in H. inversion H as [? d'' Hc' |]; subst.
      constructor. by eapply completes_trans.
Qed.

(** A dictionary no signer entry refers to is left alone. *)
Lemma sign_loop_frame st txs st' l :
  (∀ tx a, tx ∈ txs → ¬ is_signer_entry tx a l) →
  Sync.sign_loop c st txs = Ok st' → heap st' !! l = heap st !! l.
Proof.
  revert st. induction txs as [|tx txs IH]; intros st Hno H.
  - by injection H as <-.
  - simpl in H. bind_inv H as st1 Hst1.
    rewrite (IH st1); [|intros tx' a' ?; apply Hno; by right|done].
    apply (sign_tx_heap _ _ _ l) in Hst1 as [Heq|(a & d & d' & Hentry & _)]; [done|].
    exfalso. eapply Hno; [|done]. by left.
Qed.

(** A completed dictionary stays completed for the same sender as long
    as the signer entries that refer to it later share that sender. *)
Lemma sign_loop_completed st txs st' l d addr :
  (∀ tx a, tx ∈ txs → is_signer_entry tx a l → address a = addr) →
  Sync.sign_loop c st txs = Ok st' →
  heap st !! l = Some d → completed addr d →
  ∃ d', heap st' !! l = Some d' ∧ completed addr d' ∧ completes d d'.
Proof.
  revert st d. induction txs as [|tx txs IH]; intros st d Hsame H Hd Hcompleted.
  - injection H as <-. exists d. split_and!; first [done | apply completes_refl].
  - simpl in H. bind_inv H as st1 Hst1.
    apply (sign_tx_heap _ _ _ l) in Hst1
      as [Heq|(a & d0 & d1 & Hentry & Hd0 & Hd1 & Hcompleted1 & Hc)].
    + destruct (IH st1 d) as (d' & ? & ? & ?); try done.
      * intros tx' a' ?. apply Hsame. by right.
      * by rewrite Heq.
      * by exists d'.
    + rewrite Hd in Hd0. injection Hd0 as <-.
      rewrite (Hsame tx a) in Hcompleted1; [|by left|done].
      destruct (IH st1 d1) as (d' & ? & ? & ?); try done.
      * intros tx' a' ?. apply Hsame. by right.
      * exists d'. split_and!; try done. by eapply completes_trans.
Qed.

(** An entry that does not write the ledger entry of [S] leaves it. *)
Lemma sign_tx_ledger_other st tx st' S :
  ¬ sets_ledger c tx S → Sync.sign_tx c st tx = Ok st' →
  nonces st' !! S = nonces st !! S.
Proof.
  intros Hno H. pose proof H as H'.
  apply sign_tx_Ok in H as [[H1 H]|[(H1 & H2 & H)|[[Hdec H]|[_ ->]]]].
  - apply sign_raw_Ok in H as (b & p & n & a & Hb & Hp & _ & Hfrom & ->). simpl.
    destruct (decide (a = S)) as [->|Hne]; [|by rewrite lookup_insert_ne].
    exfalso. apply Hno. left. by exists b, p.
  - apply sign_signer_Ok in H
      as (a & l & d & d3 & next & raw & Ha & Hl & _ & _ & _ & ->). simpl.
    destruct (decide (address a = S)) as [<-|Hne]; [|by rewrite lookup_insert_ne].
    exfalso. apply Hno. right. by exists a, l.
  - by apply sign_decoded_Ok in H as (raw & _ & _ & ->).
  - done.
Qed.


(** A signer entry without nonce that finds [v] in the ledger is
    signed with [v]; one that finds nothing is signed with the
    transaction count of the chain. *)
Lemma sign_tx_nonce_less st tx a l d st' :
  is_signer_entry tx a l → heap st !! l = Some d → nonce_less d →
  Sync.sign_tx c st tx = Ok st' →
  ∃ count d' raw,
    get_transaction_count c (address a) = Ok count ∧
    heap st' !! l = Some d' ∧
    signed_with c a d' (default count (nonces st !! address a)) raw ∧
    signed_transactions st' = signed_transactions st ++ [raw] ∧
    nonces st' !! address a = Some (default count (nonces st !! address a) + 1) ∧
    heap st' = <[l := d']> (heap st).
Proof.
  intros Hentry Hd Hless H.
  apply (sign_tx_signer_Ok st tx a l st' Hentry) in H
    as (d0 & d' & n & raw & Hd0 & Hheap & Hnonces & Hout & Hsigned & _ & _ & Hn & _).
  rewrite Hd in Hd0. injection Hd0 as <-.
  destruct (Hn Hless) as (count & Hcount & ->).
  exists count, d', raw. split_and!; try done.
  - rewrite Hheap. by simplify_map_eq.
  - rewrite Hnonces. by simplify_map_eq.
Qed.
End Ledger.


(** Proves [¬ sets_ledger _ tx _] for a concrete entry [tx]. *)
Ltac demo_no_ledger :=
  let H := fresh in
  intros [(? & ? & H & _)|(? & ? & H & _)];
  [ vm_compute in H; discriminate H
  | destruct H as (? & H & _); vm_compute in H; discriminate H ].

(** ** Signer entries after a dictionary-style entry *)




(** ** Signer entries with an explicit nonce *)



(** ** Runs of signer entries without nonce *)

Section Run.
Context (c : Collaborators).

End Run.




(** ** In-place completion of the transaction dictionaries *)

(** C10, as the code has it.  After [sign_bundle] has returned, the
    transaction dictionary of every signer entry holds an integer nonce
    and a gas entry; a nonce and a gas entry that were there before the
    call are kept, and so is every key other than from, nonce and gas.
    Its from key holds the address of the entry's signer when no later
    signer entry carries the same dictionary object for another sender.
    A dictionary that no signer entry carries is the same after the call
    as before. *)
Theorem sign_bundle_completes_in_place (c : Collaborators)
    (txs : list (gmap string pyval)) (h : gmap nat (gmap string pyval))
    (out : list bytes) (h' : gmap nat (gmap string pyval)) :
  Sync.sign_bundle c txs h = Ok (out, h') →
  (∀ (i : nat) (tx : gmap string pyval) (a : LocalAccount) (l : nat),
     txs !! i = Some tx → is_signer_entry tx a l →
     ∃ d d', h !! l = Some d ∧ h' !! l = Some d' ∧
             (∃ n, d' !! "nonce" = Some (VInt n)) ∧ is_Some (d' !! "gas") ∧
             completes d d') ∧
  (∀ (i : nat) (tx : gmap string pyval) (a : LocalAccount) (l : nat),
     txs !! i = Some tx → is_signer_entry tx a l →
     (∀ (j : nat) tx' a', (i < j)%nat → txs !! j = Some tx' →
        is_signer_entry tx' a' l → address a' = address a) →
     ∃ d d', h !! l = Some d ∧ h' !! l = Some d' ∧
             completed (address a) d' ∧ completes d d') ∧
  (∀ l : nat, (∀ tx a, tx ∈ txs → ¬ is_signer_entry tx a l) → h' !! l = h !! l).
Proof.
  intros Hrun. apply sign_bundle_Ok in Hrun as (st & Hrun & _ & <-).
  assert (Hstep : ∀ (i : nat) tx a l, txs !! i = Some tx → is_signer_entry tx a l →
            ∃ st1 d d1, Sync.sign_loop c st1 (drop (S i) txs) = Ok st ∧
                        h !! l = Some d ∧ heap st1 !! l = Some d1 ∧
                        completed (address a) d1 ∧ completes d d1).
  { intros i tx a l Hi Hentry.
    pose proof (take_drop_middle txs i tx Hi) as Hsplit.
    rewrite <- Hsplit in Hrun.
    apply sign_loop_app_Ok in Hrun as (st0 & Hpre & Hrun).
    simpl in Hrun. bind_inv Hrun as st1 Hst1.
    apply (sign_tx_signer_Ok c st0 tx a l st1 Hentry) in Hst1
      as (d0 & d1 & n & raw & Hd0 & Hheap & _ & _ & _ & Hcompleted & Hc01 & _).
    pose proof (sign_loop_heap c _ _ _ l Hpre) as Hrel. simpl in Hrel.
    rewrite Hd0 in Hrel. inversion Hrel as [d ? Hc Hd|]; subst.
    exists st1, d, d1. split_and!; try done.
    - rewrite Hheap. by simplify_map_eq.
    - by eapply completes_trans. }
  split; [|split].
  - intros i tx a l Hi Hentry.
    destruct (Hstep i tx a l Hi Hentry)
      as (st1 & d & d1 & Hrest & Hd & Hd1 & (_ & [n Hn] & Hgas) & Hc).
    pose proof (sign_loop_heap c _ _ _ l Hrest) as Hrel.
    rewrite Hd1 in Hrel. inversion Hrel as [? d' Hc' Heq Hd'|]; subst.
    exists d, d'. split; [done|]. split; [done|].
    pose proof Hc' as (_ & Hnonce & Hgas').
    split_and!.
    + exists n. rewrite Hnonce; [done|].
      unfold nonce_less, dict_get. by rewrite Hn.
    + by rewrite Hgas'.
    + eapply completes_trans; [exact Hc|exact Hc'].
  - intros i tx a l Hi Hentry Hlater.
    destruct (Hstep i tx a l Hi Hentry)
      as (st1 & d & d1 & Hrest & Hd & Hd1 & Hcompleted & Hc).
    destruct (sign_loop_completed c st1 (drop (S i) txs) st l d1 (address a))
      as (d' & Hd' & Hcompleted' & Hc1); try done.
    + intros tx' a' Hin Hentry'.
      apply list_elem_of_lookup in Hin as (k & Hk).
      rewrite lookup_drop in Hk.
      apply (Hlater (S i + k)%nat tx' a'); [lia|done|done].
    + exists d, d'. split_and!; try done.
      by eapply completes_trans.
  - intros l Hno. by rewrite (sign_loop_frame c _ _ _ l Hno Hrun).
Qed.

Lemma sign_bundle_completes_in_place_witness :
  ∃ d d',
    Demo.heap0 !! 0%nat = Some d ∧ Demo.heap_mixed !! 0%nat = Some d' ∧
    completed (address Demo.alice) d' ∧ completes d d'.
Proof.
  refine (proj1 (proj2 (sign_bundle_completes_in_place Demo.w3 Demo.bundle_mixed
                          Demo.heap0 Demo.out_mixed Demo.heap_mixed _))
            2%nat (Demo.signer_spec Demo.alice 0) Demo.alice 0%nat eq_refl _ _).
  - vm_compute. reflexivity.
  - demo_entry.
  - intros j tx' a' Hj Htx' (_ & Hsigner & Hdict).
    destruct j as [|[|[|[|[|j]]]]]; try lia; simpl in Htx'; try discriminate Htx'.
    + injection Htx' as <-. vm_compute in Hsigner. discriminate Hsigner.
    + injection Htx' as <-. vm_compute in Hdict. discriminate Hdict.
Defined.

(** The from key need not hold the address of the entry's signer:
    Alice's and Bob's signer entries carry one and the same dictionary
    object; after the call its from key holds Bob's address, not
    Alice's, and Bob's transaction is signed with the nonce written for
    Alice. *)
Lemma sign_bundle_completes_in_place_counterexample :
  [Demo.signer_spec Demo.alice 0; Demo.signer_spec Demo.bob 0] !! 0%nat =
    Some (Demo.signer_spec Demo.alice 0) ∧
  is_signer_entry (Demo.signer_spec Demo.alice 0) Demo.alice 0 ∧
  is_signer_entry (Demo.signer_spec Demo.bob 0) Demo.bob 0 ∧
  Sync.sign_bundle Demo.w3
    [Demo.signer_spec Demo.alice 0; Demo.signer_spec Demo.bob 0] Demo.heap0 =
    Ok ([[x02; x0a; x03]; [x02; x0b; x03]],
        <[0%nat := Demo.completed_transfer "0xB" 3]> Demo.heap0) ∧
  (<[0%nat := Demo.completed_transfer "0xB" 3]> Demo.heap0) !! 0%nat =
    Some (Demo.completed_transfer "0xB" 3) ∧
  Demo.completed_transfer "0xB" 3 !! "from" = Some (VStr "0xB") ∧
  ¬ completed (address Demo.alice) (Demo.completed_transfer "0xB" 3).
Proof.
  split_and!; try first [demo_entry | vm_compute; reflexivity].
  intros (Hfrom & _). vm_compute in Hfrom. discriminate Hfrom.
Qed.


(** * Further properties of the signer *)

Section SignerMore.
Context (c : Collaborators).

Lemma signer_dict_Some (tx : gmap string pyval) (l : nat) :
  signer_dict tx = Some l ↔ ∃ a, is_signer_entry tx a l.
Proof.
  unfold signer_dict, is_signer_entry. split.
  - destruct (contains tx "signed_transaction") eqn:H1; [done|].
    apply contains_false in H1.
    destruct (tx !! "signer") as [[| | | | |a|]|]; try done.
    destruct (tx !! "transaction") as [[| | | | | |l']|]; try done.
    intros [= ->]. by exists a.
  - intros (a & H1 & H2 & H3). apply contains_false in H1.
    by rewrite H1, H2, H3.
Qed.

Lemma no_dict_values_lookup (tx : gmap string pyval) k l :
  no_dict_values tx = true → tx !! k ≠ Some (VRef l).
Proof.
  unfold no_dict_values. rewrite forallb_forall. intros Hall Hk.
  apply elem_of_map_to_list in Hk. apply list_elem_of_In in Hk.
  apply Hall in Hk. discriminate Hk.
Qed.

Lemma truthy_no_ref (h1 h2 : gmap nat (gmap string pyval)) (v : pyval) :
  (∀ l, v ≠ VRef l) → truthy h1 v = truthy h2 v.
Proof. destruct v; try done. intros H. by destruct (H l). Qed.

(** The re-encoding of an entry without dictionary values does not read
    the store. *)
Lemma reencode_store_independent (h1 h2 : gmap nat (gmap string pyval))
    (tx : gmap string pyval) :
  no_dict_values tx = true → reencode c h1 tx = reencode c h2 tx.
Proof.
  intros Hno.
  assert (Hk : ∀ k, truthy h1 (dict_get tx k) = truthy h2 (dict_get tx k)).
  { intros k. apply truthy_no_ref. intros l. unfold dict_get.
    destruct (tx !! k) as [v|] eqn:Hv; [|done]. simpl. intros ->.
    by apply (no_dict_values_lookup tx k l). }
  unfold reencode. by rewrite !Hk.
Qed.

Lemma sign_tx_unrecognised st tx :
  recognised tx = false → Sync.sign_tx c st tx = Ok st.
Proof.
  unfold recognised, Sync.sign_tx. intros H.
  apply orb_false_iff in H as [H H3]. apply orb_false_iff in H as [H1 H2].
  by rewrite H1, H2, H3.
Qed.

Lemma sign_raw_intro st tx b p n S :
  is_raw_entry tx b → _parse_signed_tx c b = Ok p →
  p !! "nonce" = Some (VInt n) → p !! "from" = Some (VStr S) →
  Sync.sign_tx c st tx =
    Ok {| nonces := <[S := n + 1]> (nonces st);
          signed_transactions := signed_transactions st ++ [b];
          heap := heap st |}.
Proof.
  intros Hb Hp Hn HS. rewrite (sign_tx_raw c st tx b Hb). unfold sign_raw.
  apply getitem_Ok in Hb, Hn, HS. rewrite Hb. simpl. rewrite Hp. simpl.
  rewrite Hn. simpl. by rewrite HS.
Qed.

(** A dictionary that is already complete for the signer is neither
    changed nor looked up on the chain. *)
Lemma complete_tx_dict_completed ledger a d n :
  d !! "from" = Some (VStr (address a)) → d !! "nonce" = Some (VInt n) →
  is_Some (d !! "gas") →
  complete_tx_dict c ledger a d = Ok (d, n + 1).
Proof.
  intros Hfrom Hn Hgas. unfold complete_tx_dict.
  rewrite (insert_id d "from" _ Hfrom).
  unfold dict_get. rewrite Hn. simpl.
  apply getitem_Ok in Hn. rewrite Hn. simpl.
  apply contains_true in Hgas. by rewrite Hgas.
Qed.

Lemma sign_signer_completed st tx a l d n raw :
  is_signer_entry tx a l → heap st !! l = Some d →
  d !! "from" = Some (VStr (address a)) → d !! "nonce" = Some (VInt n) →
  is_Some (d !! "gas") → sign_transaction c a d = Ok raw →
  Sync.sign_tx c st tx =
    Ok {| nonces := <[address a := n + 1]> (nonces st);
          signed_transactions := signed_transactions st ++ [raw];
          heap := heap st |}.
Proof.
  intros Hentry Hd Hfrom Hn Hgas Hraw.
  rewrite (sign_tx_signer c st tx a l Hentry). destruct Hentry as (_ & Ha & Hl).
  unfold sign_signer. apply getitem_Ok in Ha, Hl. rewrite Ha, Hl. simpl.
  rewrite Hd. rewrite (complete_tx_dict_completed _ a d n Hfrom Hn Hgas). simpl.
  rewrite Hraw. simpl. by rewrite (insert_id (heap st) l d Hd).
Qed.
End SignerMore.

(** ** Unrecognised entries are dropped *)

(** X1. The synchronous signer treats a bundle exactly like the bundle
    without its unrecognised entries: same result, same store, same
    error; so a returned list has as many elements as the bundle has
    recognised entries. *)
Theorem sync_sign_bundle_filter (c : Collaborators)
    (txs : list (gmap string pyval)) (h : gmap nat (gmap string pyval)) :
  Sync.sign_bundle c txs h = Sync.sign_bundle c (List.filter recognised txs) h ∧
  ∀ out h', Sync.sign_bundle c txs h = Ok (out, h') →
            length out = length (List.filter recognised txs).
Proof.
  assert (Hloop : ∀ st, Sync.sign_loop c st txs =
                        Sync.sign_loop c st (List.filter recognised txs)).
  { induction txs as [|tx txs IH]; intros st; [done|]. simpl.
    destruct (recognised tx) eqn:Hrec.
    - simpl. destruct (Sync.sign_tx c st tx); [apply IH|done].
    - rewrite (sign_tx_unrecognised c st tx Hrec). simpl. apply IH. }
  split.
  - unfold Sync.sign_bundle. by rewrite Hloop.
  - intros out h' Hrun. apply sign_bundle_Ok in Hrun as (st & Hrun & <- & _).
    rewrite Hloop in Hrun.
    apply sign_loop_appends in Hrun as (suffix & -> & Hlen); [done|].
    apply Forall_forall. intros tx Htx. apply list_elem_of_In in Htx.
    by apply filter_In in Htx as [_ Htx].
Qed.

(** ** The asynchronous signer against the synchronous one *)

(** X2. On a bundle whose entries all carry a signed_transaction or a
    signer key, the asynchronous signer and the synchronous signer give
    the same result, errors included. *)
Theorem async_sign_bundle_agrees (c : Collaborators)
    (txs : list (gmap string pyval)) (h : gmap nat (gmap string pyval)) :
  Forall (λ tx, contains tx "signed_transaction" || contains tx "signer" = true) txs →
  Async.sign_bundle c txs h = Sync.sign_bundle c txs h.
Proof.
  intros Hall. unfold Async.sign_bundle, Sync.sign_bundle.
  assert (Hloop : ∀ st, Async.sign_loop c st txs = Sync.sign_loop c st txs).
  { induction Hall as [|tx txs Htx _ IH]; intros st; [done|]. simpl.
    assert (Hstep : Async.sign_tx c st tx = Sync.sign_tx c st tx).
    { unfold Async.sign_tx, Sync.sign_tx.
      destruct (contains tx "signed_transaction"); [done|].
      destruct (contains tx "signer"); [done|discriminate Htx]. }
    rewrite Hstep. destruct (Sync.sign_tx c st tx); [apply IH|done]. }
  by rewrite Hloop.
Qed.

(** X3. The asynchronous signer raises [ValueError] at the first entry
    that has neither a signed_transaction nor a signer key, when the
    entries before it were signed; a dictionary-style entry is such an
    entry. *)
Theorem async_sign_bundle_unsupported (c : Collaborators)
    (pre post : list (gmap string pyval)) (tx : gmap string pyval)
    (h : gmap nat (gmap string pyval)) (st : sign_state) :
  Async.sign_loop c (sign_init h) pre = Ok st →
  tx !! "signed_transaction" = None → tx !! "signer" = None →
  Async.sign_bundle c (pre ++ tx :: post) h =
    Raise (ValueError "Unsupported transaction type in bundle").
Proof.
  intros Hpre H1 H2. unfold Async.sign_bundle.
  assert (Happ : ∀ st0 l1 l2, Async.sign_loop c st0 (l1 ++ l2) =
            st' ← Async.sign_loop c st0 l1; Async.sign_loop c st' l2).
  { intros st0 l1 l2. revert st0. induction l1 as [|e l1 IH]; intros st0; [done|].
    simpl. destruct (Async.sign_tx c st0 e); [apply IH|done]. }
  rewrite Happ, Hpre. simpl. unfold Async.sign_tx.
  apply contains_false in H1, H2. by rewrite H1, H2.
Qed.


Lemma async_sign_bundle_agrees_witness :
  Async.sign_bundle Demo.w3
    [Demo.raw_spec Demo.raw_alice_5; Demo.signer_spec Demo.alice 0] Demo.heap0 =
  Sync.sign_bundle Demo.w3
    [Demo.raw_spec Demo.raw_alice_5; Demo.signer_spec Demo.alice 0] Demo.heap0.
Proof.
  apply async_sign_bundle_agrees.
  repeat (constructor; [vm_compute; reflexivity|]). constructor.
Defined.

Lemma async_sign_bundle_unsupported_witness :
  Async.sign_bundle Demo.w3
    ([Demo.raw_spec Demo.raw_alice_5] ++
       Demo.decoded_spec "0xB" 7 Demo.hash_7 :: [Demo.signer_spec Demo.alice 0])
    Demo.heap0 =
  Raise (ValueError "Unsupported transaction type in bundle").
Proof.
  eapply (async_sign_bundle_unsupported Demo.w3 [Demo.raw_spec Demo.raw_alice_5]);
    vm_compute; reflexivity.
Defined.

(** ** Signing the same entries again *)

(** X4. A signer entry that was signed is signed again without any
    chain call and to the same bytes: its dictionary is complete, so the
    second pass keeps the nonce of the first one, leaves the store as it
    is, and only moves the ledger to that nonce plus one.  A bundle that
    lists one signer entry twice therefore holds the same signed
    transaction twice, not two consecutive nonces. *)
Theorem signer_entry_signed_again (c : Collaborators) (st st1 : sign_state)
    (tx : gmap string pyval) (a : LocalAccount) (l : nat) :
  is_signer_entry tx a l → Sync.sign_tx c st tx = Ok st1 →
  ∃ d n raw,
    heap st1 !! l = Some d ∧ signed_with c a d n raw ∧
    signed_transactions st1 = signed_transactions st ++ [raw] ∧
    ∀ st2 : sign_state, heap st2 !! l = Some d →
      Sync.sign_tx c st2 tx =
        Ok {| nonces := <[address a := n + 1]> (nonces st2);
              signed_transactions := signed_transactions st2 ++ [raw];
              heap := heap st2 |}.
Proof.
  intros Hentry Hstep.
  apply (sign_tx_signer_Ok c st tx a l st1 Hentry) in Hstep
    as (d0 & d & n & raw & _ & Hheap & _ & Hout & Hsigned & Hcompleted & _).
  exists d, n, raw. split_and!; try done.
  - rewrite Hheap. by simplify_map_eq.
  - intros st2 Hd. destruct Hsigned as (Hn & Hfrom & Hraw).
    destruct Hcompleted as (_ & _ & Hgas).
    by apply (sign_signer_completed c st2 tx a l d n raw).
Qed.

(** The second run of a bundle over the store the first run left. *)
Lemma sign_loop_again (c : Collaborators) (txs : list (gmap string pyval)) :
  NoDup (omap signer_dict txs) →
  Forall (λ tx, is_decoded_entry tx → no_dict_values tx = true) txs →
  ∀ st1 st1' st2, Sync.sign_loop c st1 txs = Ok st1' → heap st2 = heap st1' →
  ∃ suffix st2',
    signed_transactions st1' = signed_transactions st1 ++ suffix ∧
    Sync.sign_loop c st2 txs = Ok st2' ∧
    signed_transactions st2' = signed_transactions st2 ++ suffix ∧
    heap st2' = heap st1'.
Proof.
  induction txs as [|tx txs IH]; intros Hdup Hdec st1 st1' st2 Hrun Hheap.
  { injection Hrun as <-. exists [], st2. by rewrite !app_nil_r. }
  simpl in Hrun. bind_inv Hrun as st1a Hstep.
  apply Forall_cons in Hdec as [Hdec_tx Hdec].
  assert (Hdup' : NoDup (omap signer_dict txs)).
  { simpl in Hdup. destruct (signer_dict tx); [by apply NoDup_cons in Hdup as [_ ?]|done]. }
  assert (Hnext : ∀ st2a raw,
            Sync.sign_tx c st2 tx = Ok st2a → heap st2a = heap st1' →
            signed_transactions st1a = signed_transactions st1 ++ raw →
            signed_transactions st2a = signed_transactions st2 ++ raw →
            ∃ suffix st2',
              signed_transactions st1' = signed_transactions st1 ++ suffix ∧
              Sync.sign_loop c st2 (tx :: txs) = Ok st2' ∧
              signed_transactions st2' = signed_transactions st2 ++ suffix ∧
              heap st2' = heap st1').
  { intros st2a raw Hstep2 Hheap2 Hout1 Hout2.
    destruct (IH Hdup' Hdec st1a st1' st2a Hrun Hheap2)
      as (suffix & st2' & Hs1 & Hrun2 & Hs2 & Hh).
    exists (raw ++ suffix), st2'. simpl. rewrite Hstep2. simpl.
    rewrite Hs1, Hs2, Hout1, Hout2, <- !app_assoc. done. }
  pose proof Hstep as Hstep'.
  apply sign_tx_Ok in Hstep as [[H1 H]|[(H1 & H2 & H)|[[Hd H]|[Hrec ->]]]].
  - apply sign_raw_Ok in H as (b & p & n & S & Hb & Hp & Hn & HS & ->).
    eapply (Hnext _ [b]); [by eapply sign_raw_intro|done|done|done].
  - apply sign_signer_Ok in H
      as (a & l & d0 & d3 & next & raw & Ha & Hl & _).
    assert (Hentry : is_signer_entry tx a l) by done.
    apply (sign_tx_signer_Ok c st1 tx a l st1a Hentry) in Hstep'
      as (d0' & d & n & raw' & _ & Hh1 & _ & Hout & (Hn & Hfrom & Hraw)
          & (_ & _ & Hgas) & _).
    assert (Hfinal : heap st1' !! l = Some d).
    { assert (Hno : ∀ tx' a', tx' ∈ txs → ¬ is_signer_entry tx' a' l).
      { intros tx' a' Hin Hentry'.
        assert (Hl1 : signer_dict tx = Some l) by (apply signer_dict_Some; eauto).
        assert (Hl2 : signer_dict tx' = Some l) by (apply signer_dict_Some; eauto).
        simpl in Hdup. rewrite Hl1 in Hdup. apply NoDup_cons in Hdup as [Hnotin _].
        apply Hnotin. apply list_elem_of_omap. by exists tx'. }
      rewrite (sign_loop_frame c st1a txs st1' l Hno Hrun).
      rewrite Hh1. by simplify_map_eq. }
    eapply (Hnext _ [raw']).
    + apply (sign_signer_completed c st2 tx a l d n raw'); try done.
      by rewrite Hheap.
    + done.
    + done.
    + done.
  - apply sign_decoded_Ok in H as (raw & Hraw & Hhash & ->). simpl in *.
    eapply (Hnext _ [raw]).
    + rewrite (sign_tx_decoded c st2 tx Hd). unfold sign_decoded.
      rewrite (reencode_store_independent c (heap st2) (heap st1) tx (Hdec_tx Hd)).
      rewrite Hraw. simpl. apply getitem_Ok in Hhash. rewrite Hhash. simpl.
      by rewrite bool_decide_eq_true_2.
    + done.
    + done.
    + done.
  - eapply (Hnext _ []).
    + by apply sign_tx_unrecognised.
    + done.
    + by rewrite app_nil_r.
    + by rewrite app_nil_r.
Qed.

(** X5. Signing a bundle a second time, on the dictionaries as the
    first call left them, returns the same signed transactions and
    changes nothing (as when a bundle is simulated and then sent),
    provided no two signer entries share a dictionary object and the
    dictionary-style entries hold no dictionary objects. *)
Theorem sign_bundle_again (c : Collaborators)
    (txs : list (gmap string pyval)) (h : gmap nat (gmap string pyval))
    (out : list bytes) (h' : gmap nat (gmap string pyval)) :
  NoDup (omap signer_dict txs) →
  Forall (λ tx, is_decoded_entry tx → no_dict_values tx = true) txs →
  Sync.sign_bundle c txs h = Ok (out, h') →
  Sync.sign_bundle c txs h' = Ok (out, h').
Proof.
  intros Hdup Hdec Hrun. apply sign_bundle_Ok in Hrun as (st & Hrun & <- & <-).
  destruct (sign_loop_again c txs Hdup Hdec (sign_init h) st (sign_init (heap st))
              Hrun eq_refl) as (suffix & st2 & Hs1 & Hrun2 & Hs2 & Hh).
  apply sign_bundle_Ok. exists st2. split_and!; [done| |done].
  by rewrite Hs1, Hs2.
Qed.

(** ** Chain queries of a signer entry *)

(** X6. The default of [nonces.get] is evaluated before the lookup: a
    signer entry without nonce asks the chain for the transaction count
    even when the ledger holds a nonce for the sender, and a failing
    query fails the call. *)
Theorem signer_entry_queries_eagerly (c : Collaborators) (st : sign_state)
    (tx : gmap string pyval) (a : LocalAccount) (l : nat)
    (d : gmap string pyval) (e : exn) :
  is_signer_entry tx a l → heap st !! l = Some d → nonce_less d →
  get_transaction_count c (address a) = Raise e →
  Sync.sign_tx c st tx = Raise e.
Proof.
  intros Hentry Hd Hless Hcount.
  rewrite (sign_tx_signer c st tx a l Hentry). destruct Hentry as (_ & Ha & Hl).
  unfold sign_signer. apply getitem_Ok in Ha, Hl. rewrite Ha, Hl. simpl.
  rewrite Hd. unfold complete_tx_dict.
  assert (Hless' : is_None (dict_get (<["from" := VStr (address a)]> d) "nonce") = true).
  { unfold dict_get. rewrite lookup_insert_ne by done. exact Hless. }
  rewrite Hless', Hcount. done.
Qed.


Lemma signer_entry_signed_again_witness :
  ∃ d n raw,
    heap {| nonces := <["0xA"%string := 4]> ∅;
            signed_transactions := [[x02; x0a; x03]];
            heap := <[0%nat := Demo.completed_transfer "0xA" 3]> Demo.heap0 |}
      !! 0%nat = Some d ∧
    signed_with Demo.w3 Demo.alice d n raw ∧
    [[x02; x0a; x03]] = [] ++ [raw] ∧
    ∀ st2 : sign_state, heap st2 !! 0%nat = Some d →
      Sync.sign_tx Demo.w3 st2 (Demo.signer_spec Demo.alice 0) =
        Ok {| nonces := <[address Demo.alice := n + 1]> (nonces st2);
              signed_transactions := signed_transactions st2 ++ [raw];
              heap := heap st2 |}.
Proof.
  refine (signer_entry_signed_again Demo.w3 (sign_init Demo.heap0)
            {| nonces := <["0xA"%string := 4]> ∅;
               signed_transactions := [[x02; x0a; x03]];
               heap := <[0%nat := Demo.completed_transfer "0xA" 3]> Demo.heap0 |}
            (Demo.signer_spec Demo.alice 0) Demo.alice 0%nat _ _).
  - demo_entry.
  - vm_compute. reflexivity.
Defined.

Lemma sign_bundle_again_witness :
  Sync.sign_bundle Demo.w3 Demo.bundle_mixed Demo.heap_mixed =
    Ok (Demo.out_mixed, Demo.heap_mixed).
Proof.
  apply (sign_bundle_again Demo.w3 Demo.bundle_mixed Demo.heap0).
  - apply (bool_decide_unpack _). vm_compute. exact I.
  - repeat (constructor;
      [first [ intros _; vm_compute; reflexivity
             | intros (H1 & H2 & _);
               first [vm_compute in H1; discriminate H1
                     |vm_compute in H2; discriminate H2] ]|]).
    constructor.
  - vm_compute. reflexivity.
Defined.

(** * Nonces of one sender among the entries of others *)

(** The signer only appends to its output list. *)
Lemma sign_loop_appends_any (c : Collaborators) (st : sign_state)
    (txs : list (gmap string pyval)) (st' : sign_state) :
  Sync.sign_loop c st txs = Ok st' →
  ∃ suffix, signed_transactions st' = signed_transactions st ++ suffix.
Proof.
  revert st. induction txs as [|tx txs IH]; intros st H.
  - injection H as <-. exists []. by rewrite app_nil_r.
  - simpl in H. bind_inv H as st1 Hst1. apply IH in H as (suffix & ->).
    destruct (recognised tx) eqn:Hrec.
    + apply sign_tx_appends in Hst1 as (raw & -> & _); [|done].
      exists (raw :: suffix). by rewrite <- app_assoc.
    + rewrite (sign_tx_unrecognised c st tx Hrec) in Hst1. injection Hst1 as <-.
      by exists suffix.
Qed.

Section PerSender.
Context (c : Collaborators) (S : string) (count : Z).
Hypothesis chain_count : get_transaction_count c S = Ok count.

Lemma is_signer_of_true (tx : gmap string pyval) :
  is_signer_of S tx = true ↔ ∃ a l, is_signer_entry tx a l ∧ address a = S.
Proof.
  unfold is_signer_of, is_signer_entry. split.
  - destruct (contains tx "signed_transaction") eqn:H1; [done|].
    apply contains_false in H1.
    destruct (tx !! "signer") as [[| | | | |a|]|]; try done.
    destruct (tx !! "transaction") as [[| | | | | |l]|]; try done.
    intros H. apply bool_decide_eq_true in H. by exists a, l.
  - intros (a & l & (H1 & H2 & H3) & Ha). apply contains_false in H1.
    rewrite H1, H2, H3. by apply bool_decide_eq_true.
Qed.

(** The run from any state: the nonce of the [i]-th entry is the one the
    first signer entry of [S] gets, plus the number of signer entries of
    [S] before it. *)
Lemma sign_loop_per_sender (txs : list (gmap string pyval)) :
  NoDup (omap signer_dict txs) →
  (∀ tx b p, tx ∈ txs → is_raw_entry tx b → _parse_signed_tx c b = Ok p →
             p !! "from" ≠ Some (VStr S)) →
  ∀ st st',
    (∀ tx a l, tx ∈ txs → is_signer_entry tx a l → address a = S →
               ∃ d, heap st !! l = Some d ∧ nonce_less d) →
    Sync.sign_loop c st txs = Ok st' →
    ∀ (i : nat) tx a l, txs !! i = Some tx → is_signer_entry tx a l → address a = S →
      ∃ d' raw,
        heap st' !! l = Some d' ∧
        signed_with c a d'
          (default count (nonces st !! S) +
           Z.of_nat (length (List.filter (is_signer_of S) (take i txs)))) raw ∧
        raw ∈ signed_transactions st'.
Proof.
  induction txs as [|tx0 txs IH]; intros Hdup Hraw st st' Hless Hrun i tx a l Hi Hentry Ha.
  { by rewrite lookup_nil in Hi. }
  simpl in Hrun. bind_inv Hrun as st1 Hstep.
  assert (Hdup' : NoDup (omap signer_dict txs)).
  { simpl in Hdup. destruct (signer_dict tx0); [by apply NoDup_cons in Hdup as [_ ?]|done]. }
  assert (Hfresh : ∀ a0 l0 tx' a', is_signer_entry tx0 a0 l0 → tx' ∈ txs →
                     ¬ is_signer_entry tx' a' l0).
  { intros a0 l0 tx' a' H0 Hin H'.
    assert (Hl0 : signer_dict tx0 = Some l0) by (apply signer_dict_Some; eauto).
    assert (Hl' : signer_dict tx' = Some l0) by (apply signer_dict_Some; eauto).
    simpl in Hdup. rewrite Hl0 in Hdup. apply NoDup_cons in Hdup as [Hnotin _].
    apply Hnotin. apply list_elem_of_omap. by exists tx'. }
  destruct i as [|i]; simpl in Hi.
  - injection Hi as ->. simpl.
    destruct (Hless tx a l) as (d & Hd & Hdless); [by left|done|done|].
    destruct (sign_tx_nonce_less c st tx a l d st1 Hentry Hd Hdless Hstep)
      as (count' & d' & raw & Hcount' & Hd' & Hsigned & Hout & _).
    rewrite Ha, chain_count in Hcount'. injection Hcount' as <-.
    rewrite Ha in Hsigned. exists d', raw. split_and!.
    + rewrite (sign_loop_frame c st1 txs st' l); [done| |done].
      intros tx' a' Hin. by apply (Hfresh a l).
    + by rewrite Z.add_0_r.
    + apply sign_loop_appends_any in Hrun as (suffix & ->).
      rewrite Hout. set_solver.
  - assert (Hless1 : ∀ tx' a' l', tx' ∈ txs → is_signer_entry tx' a' l' → address a' = S →
                       ∃ d, heap st1 !! l' = Some d ∧ nonce_less d).
    { intros tx' a' l' Hin H' Ha'.
      destruct (Hless tx' a' l') as (d & Hd & Hdless); [by right|done|done|].
      exists d. split; [|done].
      destruct (sign_tx_heap c st tx0 st1 l' Hstep)
        as [->|(a0 & d0 & d1 & H0 & _)]; [done|].
      by destruct (Hfresh a0 l' tx' a' H0 Hin). }
    destruct (IH Hdup' (λ tx' b p Hin, Hraw tx' b p (list_elem_of_further _ _ _ Hin))
                st1 st' Hless1 Hrun i tx a l Hi Hentry Ha)
      as (d' & raw & Hd' & Hsigned & Hin).
    exists d', raw. split_and!; [done| |done].
    replace (default count (nonces st !! S) +
             Z.of_nat (length (List.filter (is_signer_of S) (tx0 :: take i txs))))
      with (default count (nonces st1 !! S) +
            Z.of_nat (length (List.filter (is_signer_of S) (take i txs)))); [done|].
    cbn [take List.filter]. destruct (is_signer_of S tx0) eqn:H0.
    + cbn [length]. rewrite Nat2Z.inj_succ.
      apply is_signer_of_true in H0 as (a0 & l0 & H0 & Ha0).
      destruct (Hless tx0 a0 l0) as (d0 & Hd0 & Hd0less); [by left|done|done|].
      destruct (sign_tx_nonce_less c st tx0 a0 l0 d0 st1 H0 Hd0 Hd0less Hstep)
        as (count' & ? & ? & Hcount' & _ & _ & _ & Hledger & _).
      rewrite Ha0, chain_count in Hcount'. injection Hcount' as <-.
      rewrite Ha0 in Hledger. rewrite Hledger. cbn [default]. unfold id. lia.
    + rewrite (sign_tx_ledger_other c st tx0 st1 S); [done| |done].
      intros [(b & p & Hb & Hp & Hfrom)|(a0 & l0 & H0' & Ha0)].
      * by apply (Hraw tx0 b p (list_elem_of_here _ _) Hb Hp).
      * assert (is_signer_of S tx0 = true) by (apply is_signer_of_true; eauto).
        congruence.
Qed.
End PerSender.

(** X7. In a bundle whose signer entries carry pairwise distinct
    dictionaries, take a sender [S] none of whose raw transactions is in
    the bundle and whose signer entries all come without nonce.  Then the
    signer entry of [S] at position [i] is signed with the transaction
    count the chain reports for [S] plus the number of signer entries of
    [S] before position [i]: the entries of other senders in between do
    not disturb the sequence. *)
Theorem per_sender_nonces (c : Collaborators) (S : string) (count : Z)
    (txs : list (gmap string pyval)) (h : gmap nat (gmap string pyval))
    (out : list bytes) (h' : gmap nat (gmap string pyval)) :
  get_transaction_count c S = Ok count →
  NoDup (omap signer_dict txs) →
  (∀ tx b p, tx ∈ txs → is_raw_entry tx b → _parse_signed_tx c b = Ok p →
             p !! "from" ≠ Some (VStr S)) →
  (∀ tx a l, tx ∈ txs → is_signer_entry tx a l → address a = S →
             ∃ d, h !! l = Some d ∧ nonce_less d) →
  Sync.sign_bundle c txs h = Ok (out, h') →
  ∀ (i : nat) tx a l, txs !! i = Some tx → is_signer_entry tx a l → address a = S →
    ∃ d' raw,
      h' !! l = Some d' ∧
      signed_with c a d'
        (count + Z.of_nat (length (List.filter (is_signer_of S) (take i txs)))) raw ∧
      raw ∈ out.
Proof.
  intros Hcount Hdup Hraw Hless Hrun i tx a l Hi Hentry Ha.
  apply sign_bundle_Ok in Hrun as (st & Hrun & <- & <-).
  apply (sign_loop_per_sender c S count Hcount txs Hdup Hraw (sign_init h) st Hless Hrun
           i tx a l Hi Hentry Ha).
Qed.

(** * The normaliser *)

(** X8. A signed transaction that [_parse_signed_tx] accepts is not
    empty; its first byte selects the decoder (above 0x7f the legacy
    decoder on all the bytes, 1 and 2 the typed decoders on the bytes
    after the first); the sender of the result is the one recovered from
    the signature, whatever the decoded fields say; the signature fields
    v, r, s are gone and every other decoded field is kept. *)
Theorem parse_signed_tx_Ok (c : Collaborators) (signed_tx : bytes)
    (p : gmap string pyval) :
  _parse_signed_tx c signed_tx = Ok p →
  ∃ b0 body decoded sender,
    signed_tx = b0 :: body ∧
    ((127 < Z.of_N (Byte.to_N b0) ∧ rlp_decode c Transaction signed_tx = Ok decoded) ∨
     (Z.of_N (Byte.to_N b0) = 1 ∧
      rlp_decode c AccessListTransaction_signed_transaction_serializer body = Ok decoded) ∨
     (Z.of_N (Byte.to_N b0) = 2 ∧
      rlp_decode c DynamicFeeTransaction_signed_transaction_serializer body = Ok decoded)) ∧
    recover_transaction c signed_tx = Ok sender ∧
    p !! "from" = Some (VStr sender) ∧
    p !! "v" = None ∧ p !! "r" = None ∧ p !! "s" = None ∧
    ∀ k, k ≠ "from"%string → k ≠ "v"%string → k ≠ "r"%string → k ≠ "s"%string →
         p !! k = decoded !! k.
Proof.
  unfold _parse_signed_tx. destruct signed_tx as [|b0 body]; [done|]. intros H.
  bind_inv H as decoded Hdecoded. bind_inv H as sender Hsender. injection H as <-.
  exists b0, body, decoded, sender. split; [done|]. split.
  { destruct (127 <? _) eqn:H127; [left; split; [by apply Z.ltb_lt|done]|].
    destruct (_ =? 1) eqn:H1; [right; left; split; [by apply Z.eqb_eq|done]|].
    destruct (_ =? 2) eqn:H2; [right; right; split; [by apply Z.eqb_eq|done]|].
    discriminate Hdecoded. }
  split; [done|]. unfold dissoc. simpl.
  split_and!; try by simplify_map_eq.
  intros k ????. by simplify_map_eq.
Qed.

(** X9. Empty bytes raise [IndexError]; a first byte up to 0x7f other
    than 1 and 2 raises [ValueError] before any decoding or signature
    recovery is tried. *)
Theorem parse_signed_tx_rejects (c : Collaborators) :
  _parse_signed_tx c [] = Raise IndexError ∧
  ∀ (b0 : byte) (body : bytes),
    Z.of_N (Byte.to_N b0) ≤ 127 →
    Z.of_N (Byte.to_N b0) ≠ 1 → Z.of_N (Byte.to_N b0) ≠ 2 →
    ∃ msg, _parse_signed_tx c (b0 :: body) = Raise (ValueError msg).
Proof.
  split; [done|]. intros b0 body Hle H1 H2. unfold _parse_signed_tx.
  rewrite (proj2 (Z.ltb_ge _ _)) by lia.
  rewrite (proj2 (Z.eqb_neq _ _) H1), (proj2 (Z.eqb_neq _ _) H2). by eexists.
Qed.

(** * The trackers *)

Section BundleTracker.
Import BundleResponsePolling.
Context (chain : nat → ChainView) (self : FlashbotsBundleResponse.t).

(** The loop started in iteration [s] returns in iteration [k] exactly
    when [k] is the first iteration from [s] on in which the height read
    is not below the target. *)
Lemma bundle_wait_from_Ok (fuel s k : nat) :
  wait_from chain self fuel s = Some (k, Ok ()) ↔
  (s ≤ k < s + fuel)%nat ∧
  (∃ n, block_number (chain k) = Ok n ∧
        FlashbotsBundleResponse.target_block_number self ≤ n) ∧
  ∀ j, (s ≤ j < k)%nat →
       ∃ n, block_number (chain j) = Ok n ∧
            n < FlashbotsBundleResponse.target_block_number self.
Proof.
  revert s. induction fuel as [|fuel IH]; intros s; simpl.
  { split; [done|]. intros (? & _). lia. }
  destruct (block_number (chain s)) as [n|e] eqn:Hs.
  - destruct (n <? _) eqn:Hlt.
    + apply Z.ltb_lt in Hlt. rewrite IH. split.
      * intros (Hk & Hreach & Hbelow). split; [lia|]. split; [done|].
        intros j Hj. destruct (decide (j = s)) as [->|Hne]; [by exists n|].
        apply Hbelow. lia.
      * intros (Hk & (m & Hm & Hreach) & Hbelow).
        assert (k ≠ s) by (intros ->; rewrite Hs in Hm; injection Hm as ->; lia).
        split; [lia|]. split; [by exists m|]. intros j Hj. apply Hbelow. lia.
    + apply Z.ltb_ge in Hlt. split.
      * intros [= <-]. split; [lia|]. split; [by exists n|]. intros j Hj. lia.
      * intros (Hk & _ & Hbelow). destruct (decide (k = s)) as [->|Hne]; [done|].
        destruct (Hbelow s) as (m & Hm & Hmlt); [lia|].
        rewrite Hs in Hm. injection Hm as ->. lia.
  - split; [done|]. intros (Hk & (m & Hm & _) & Hbelow).
    destruct (decide (k = s)) as [->|Hne]; [by rewrite Hs in Hm|].
    destruct (Hbelow s) as (m' & Hm' & _); [lia|]. by rewrite Hs in Hm'.
Qed.

Lemma bundle_wait_from_below (fuel s : nat) :
  (∀ j, ∃ n, block_number (chain j) = Ok n ∧
             n < FlashbotsBundleResponse.target_block_number self) →
  wait_from chain self fuel s = None.
Proof.
  intros Hbelow. revert s. induction fuel as [|fuel IH]; intros s; simpl; [done|].
  destruct (Hbelow s) as (n & -> & Hn).
  by rewrite (proj2 (Z.ltb_lt _ _) Hn).
Qed.
End BundleTracker.

(** X10. [FlashbotsBundleResponse.wait] returns in iteration [k]
    exactly when [k] is the first iteration in which the height read is
    at least the target block number: in the first iteration, without
    sleeping, when the target is already reached.  While every height
    read stays below the target it never returns, whatever the number
    of iterations allowed. *)
Theorem bundle_wait_spec (chain : nat → ChainView) (self : FlashbotsBundleResponse.t) :
  (∀ fuel k : nat,
     BundleResponsePolling.wait chain self fuel = Some (k, Ok ()) ↔
     (k < fuel)%nat ∧
     (∃ n, block_number (chain k) = Ok n ∧
           FlashbotsBundleResponse.target_block_number self ≤ n) ∧
     ∀ j, (j < k)%nat →
          ∃ n, block_number (chain j) = Ok n ∧
               n < FlashbotsBundleResponse.target_block_number self) ∧
  ((∀ j, ∃ n, block_number (chain j) = Ok n ∧
              n < FlashbotsBundleResponse.target_block_number self) →
   ∀ fuel, BundleResponsePolling.wait chain self fuel = None).
Proof.
  split.
  - intros fuel k. unfold BundleResponsePolling.wait. rewrite bundle_wait_from_Ok.
    split; intros (Hk & Hreach & Hbelow); (split; [lia|]); (split; [done|]);
      intros j Hj; apply Hbelow; lia.
  - intros Hbelow fuel. by apply bundle_wait_from_below.
Qed.

Lemma get_receipts_Ok (view : ChainView) (bundle : list SignedTxAndHash)
    (rs : list (gmap string pyval)) :
  BundleResponsePolling.get_receipts view bundle = Ok rs ↔
  Forall2 (λ tx r, get_transaction_receipt view (hash tx) = Ok r) bundle rs.
Proof.
  revert rs. induction bundle as [|tx bundle IH]; intros rs; simpl.
  - split; [intros [= <-]; constructor|]. intros H. by inversion H.
  - split.
    + intros H. bind_inv H as r Hr. bind_inv H as rs' Hrs. injection H as <-.
      constructor; [done|]. by apply IH.
    + intros H. inversion H as [|? r ? rs' Hr Hrs]; subst.
      rewrite Hr. simpl. apply IH in Hrs. by rewrite Hrs.
Qed.

(** X11. [receipts] returns a list exactly when [wait] has returned and
    every receipt lookup succeeds; the list then has one receipt per
    transaction of the bundle, in bundle order, each looked up under the
    hash of its transaction. *)
Theorem bundle_receipts_spec (c : Collaborators) (chain : nat → ChainView)
    (txs : list bytes) (target : Z) (fuel : nat) (rs : list (gmap string pyval)) :
  BundleResponsePolling.receipts chain (FlashbotsBundleResponse.init c txs target) fuel =
    Some (Ok rs) ↔
  ∃ k, BundleResponsePolling.wait chain (FlashbotsBundleResponse.init c txs target) fuel =
         Some (k, Ok ()) ∧
       Forall2 (λ tx r, get_transaction_receipt (chain k) (keccak c tx) = Ok r) txs rs.
Proof.
  unfold BundleResponsePolling.receipts.
  assert (Hmap : ∀ k, Forall2 (λ tx r, get_transaction_receipt (chain k) (hash tx) = Ok r)
                   (FlashbotsBundleResponse.bundle (FlashbotsBundleResponse.init c txs target)) rs ↔
                 Forall2 (λ tx r, get_transaction_receipt (chain k) (keccak c tx) = Ok r) txs rs).
  { intros k. simpl. change (map ?f txs) with (f <$> txs). by rewrite Forall2_fmap_l. }
  destruct (BundleResponsePolling.wait _ _ _) as [[k [[]|e]]|]; split.
  - intros [= H]. exists k. split; [done|]. by apply Hmap, get_receipts_Ok.
  - intros (k' & [= <-] & H). f_equal. by apply get_receipts_Ok, Hmap.
  - done.
  - by intros (k' & ? & _).
  - done.
  - by intros (k' & ? & _).
Qed.

Section PrivateTracker.
Import FlashbotsPrivateTransactionResponse.
Context (chain : nat → ChainView) (self : t).

Lemma private_wait_from_spec (fuel s k : nat) (r : bool) :
  wait_from chain self fuel s = Some (k, Ok r) ↔
  (s ≤ k < s + fuel)%nat ∧
  (∀ j, (s ≤ j < k)%nat → keeps_polling chain self j) ∧
  if r then ∃ found, get_transaction (chain k) (hash (tx self)) = Ok found
  else get_transaction (chain k) (hash (tx self)) = Raise TransactionNotFound ∧
       ∃ n, block_number (chain k) = Ok n ∧ max_block_number self < n.
Proof.
  revert s. induction fuel as [|fuel IH]; intros s; simpl.
  { split; [done|]. intros (? & _). lia. }
  assert (Hfirst : ∀ P : Prop, (∀ j, (s ≤ j < k)%nat → keeps_polling chain self j) →
                    (k ≠ s → (s ≤ k)%nat → keeps_polling chain self s → P) → (k = s → P) →
                    (s ≤ k)%nat → P).
  { intros P Hall Hne Heq Hle. destruct (decide (k = s)) as [->|Hks]; [by apply Heq|].
    apply Hne; [done|done|]. apply Hall. lia. }
  destruct (get_transaction (chain s) _) as [found|e] eqn:Hget.
  - split.
    + intros [= <- <-]. split; [lia|]. split; [intros j ?; lia|by exists found].
    + intros (Hk & Hall & Hr). apply (Hfirst _ Hall); [| |lia].
      * intros _ _ (Hnf & _). congruence.
      * intros ->. destruct r; [done|]. destruct Hr as [Hr _]. congruence.
  - assert (e = TransactionNotFound ∨ e ≠ TransactionNotFound) as [->|Hne]
      by (destruct e; first [by left | by right]).
    2:{ assert (Hstop : (match e with
                         | TransactionNotFound =>
                             match block_number (chain s) with
                             | Ok height =>
                                 if max_block_number self <? height then Some (s, Ok false)
                                 else wait_from chain self fuel (S s)
                             | Raise e0 => Some (s, Raise e0)
                             end
                         | _ => Some (s, Raise e)
                         end) = Some (s, @Raise bool e)) by (by destruct e).
        rewrite Hstop. split; [done|]. intros (Hk & Hall & Hr).
        apply (Hfirst _ Hall); [| |lia].
        - intros _ _ (Hnf & _). congruence.
        - intros ->. destruct r; [destruct Hr as [? Hr]; congruence|].
          destruct Hr as [Hr _]. congruence. }
    destruct (block_number (chain s)) as [n|e] eqn:Hbn.
    + destruct (max_block_number self <? n) eqn:Hlt.
      * apply Z.ltb_lt in Hlt. split.
        -- intros [= <- <-]. split; [lia|]. split; [intros j ?; lia|].
           split; [done|by exists n].
        -- intros (Hk & Hall & Hr). apply (Hfirst _ Hall); [| |lia].
           ++ intros _ _ (_ & m & Hm & Hle). rewrite Hbn in Hm. injection Hm as ->. lia.
           ++ intros ->. destruct r; [|done]. destruct Hr as [? Hr]. congruence.
      * apply Z.ltb_ge in Hlt. rewrite IH. split.
        -- intros (Hk & Hall & Hr). split; [lia|]. split; [|done].
           intros j Hj. destruct (decide (j = s)) as [->|Hjs].
           ++ split; [done|by exists n].
           ++ apply Hall. lia.
        -- intros (Hk & Hall & Hr).
           assert (k ≠ s).
           { intros ->. destruct r.
             - destruct Hr as [? Hr]. congruence.
             - destruct Hr as (_ & m & Hm & Hgt). rewrite Hbn in Hm.
               injection Hm as ->. lia. }
           split; [lia|]. split; [|done]. intros j Hj. apply Hall. lia.
    + split; [done|]. intros (Hk & Hall & Hr). apply (Hfirst _ Hall); [| |lia].
      * intros _ _ (_ & m & Hm & _). congruence.
      * intros ->. destruct r.
        -- destruct Hr as [? Hr]. congruence.
        -- destruct Hr as (_ & m & Hm & _). congruence.
Qed.
End PrivateTracker.

(** X12. [FlashbotsPrivateTransactionResponse.wait] returns [True] in
    iteration [k] exactly when the lookup succeeds there and every
    earlier iteration kept polling (transaction not found, height read
    and not above the maximum); the height is not read in an iteration
    that finds the transaction, so a transaction found after the maximum
    block still counts as mined.  It returns [False] in iteration [k]
    exactly when the lookup fails there with [TransactionNotFound], the
    height read is above the maximum and every earlier iteration kept
    polling. *)
Theorem private_wait_spec (chain : nat → ChainView)
    (self : FlashbotsPrivateTransactionResponse.t) (fuel k : nat) :
  (FlashbotsPrivateTransactionResponse.wait chain self fuel = Some (k, Ok true) ↔
     (k < fuel)%nat ∧
     (∀ j, (j < k)%nat → keeps_polling chain self j) ∧
     ∃ found, get_transaction (chain k)
                (hash (FlashbotsPrivateTransactionResponse.tx self)) = Ok found) ∧
  (FlashbotsPrivateTransactionResponse.wait chain self fuel = Some (k, Ok false) ↔
     (k < fuel)%nat ∧
     (∀ j, (j < k)%nat → keeps_polling chain self j) ∧
     get_transaction (chain k) (hash (FlashbotsPrivateTransactionResponse.tx self)) =
       Raise TransactionNotFound ∧
     ∃ n, block_number (chain k) = Ok n ∧
          FlashbotsPrivateTransactionResponse.max_block_number self < n).
Proof.
  unfold FlashbotsPrivateTransactionResponse.wait.
  split; rewrite private_wait_from_spec; simpl;
    (split; intros (Hk & Hall & Hr); (split; [lia|]); (split; [|done]);
       intros j Hj; apply Hall; lia).
Qed.

(** X13. [bundle_hash] raises exactly for the empty bundle, where
    [reduce] has nothing to start from. *)
Theorem bundle_hash_empty (c : Collaborators) (txs : list bytes) (target : Z) :
  (txs = [] ↔
   FlashbotsBundleResponse.bundle_hash c (FlashbotsBundleResponse.init c txs target) =
     Raise TypeError) ∧
  (txs ≠ [] ↔
   ∃ digest, FlashbotsBundleResponse.bundle_hash c
               (FlashbotsBundleResponse.init c txs target) = Ok digest).
Proof.
  destruct txs as [|tx txs]; simpl.
  - split; [done|]. split; [done|]. by intros (? & ?).
  - split; [done|]. split; [|done]. intros _. eauto.
Qed.

(** * Hexadecimal text and the request builders *)

Lemma hex_digit_not_x (n : N) : hex_digit n ≠ "x"%char.
Proof.
  unfold hex_digit. destruct n as [|p]; [discriminate|].
  do 4 (destruct p as [p|p|]; try discriminate).
Qed.

(** The value of a hexadecimal digit. *)
Lemma hex_digit_inj (n m : N) :
  (n < 16)%N → (m < 16)%N → hex_digit n = hex_digit m → n = m.
Proof.
  intros Hn Hm.
  assert (Hcases : ∀ k, (k < 16)%N →
            k ∈ [0; 1; 2; 3; 4; 5; 6; 7; 8; 9; 10; 11; 12; 13; 14; 15]%N).
  { intros k Hk. destruct k as [|p]; [set_solver|].
    do 4 (destruct p as [p|p|]; try lia; try set_solver). }
  apply Hcases in Hn, Hm.
  repeat (apply elem_of_cons in Hn as [->|Hn]);
    try (by apply elem_of_nil in Hn);
    repeat (apply elem_of_cons in Hm as [->|Hm]);
    try (by apply elem_of_nil in Hm); first [done | intros H; discriminate H].
Qed.

Lemma bytes_hex_no_prefix (b : bytes) : String.prefix "0x" (bytes_hex b) = false.
Proof.
  assert (Hp : ∀ a b s1 s2, String.prefix (String a s1) (String b s2) =
                 if Ascii.ascii_dec a b then String.prefix s1 s2 else false) by done.
  destruct b as [|x rest]; [done|]. cbn [bytes_hex].
  rewrite Hp. destruct (Ascii.ascii_dec _ _); [|done].
  rewrite Hp. destruct (Ascii.ascii_dec _ _) as [Heq|]; [|done].
  symmetry in Heq. by apply hex_digit_not_x in Heq.
Qed.

Lemma bytes_hex_inj (b1 b2 : bytes) : bytes_hex b1 = bytes_hex b2 → b1 = b2.
Proof.
  revert b2. induction b1 as [|x b1 IH]; intros [|y b2] H; try done.
  simpl in H. injection H as Hhi Hlo H.
  assert (Hx := Byte.to_N_bounded x). assert (Hy := Byte.to_N_bounded y).
  apply hex_digit_inj in Hhi;
    [|apply N.Div0.div_lt_upper_bound; lia|apply N.Div0.div_lt_upper_bound; lia].
  apply hex_digit_inj in Hlo; [|apply N.mod_lt; lia|apply N.mod_lt; lia].
  assert (Heq : Byte.to_N x = Byte.to_N y).
  { rewrite (N.div_mod (Byte.to_N x) 16), (N.div_mod (Byte.to_N y) 16) by lia.
    by rewrite Hhi, Hlo. }
  f_equal; [|by apply IH].
  apply (f_equal Byte.of_N) in Heq. rewrite !Byte.of_to_N in Heq. by injection Heq.
Qed.

Lemma to_hex_unprefixed (rt : Runtime) (b : bytes) :
  hex_method rt b = bytes_hex b → to_hex rt b = ("0x" +:+ bytes_hex b)%string.
Proof. intros H. unfold to_hex. by rewrite H, bytes_hex_no_prefix. Qed.

Lemma to_hex_prefixed (rt : Runtime) (b : bytes) :
  hex_method rt b = ("0x" +:+ bytes_hex b)%string →
  to_hex rt b = ("0x" +:+ bytes_hex b)%string.
Proof.
  intros H. unfold to_hex. rewrite H.
  assert (Hp : ∀ s, String.prefix "0x" ("0x" +:+ s) = true).
  { intros s. change ("0x" +:+ s)%string with (String "0" (String "x" s)).
    change (String.prefix "0x" (String "0" (String "x" s)))
      with (if Ascii.ascii_dec "0" "0"
            then if Ascii.ascii_dec "x" "x" then String.prefix "" s else false
            else false).
    destruct (Ascii.ascii_dec "0" "0"); [|done].
    destruct (Ascii.ascii_dec "x" "x"); [|done]. by destruct s. }
  by rewrite Hp.
Qed.

(** X14. Whether the [hex] method of the byte string puts "0x" in
    front or not, [to_hex] returns "0x" followed by the two hexadecimal
    digits of each byte: the digits never start with "0x" themselves, so
    the prefix test cannot be fooled.  Different byte strings get
    different texts. *)
Theorem to_hex_normalises (rt : Runtime) :
  (∀ b : bytes,
     hex_method rt b = bytes_hex b ∨ hex_method rt b = ("0x" +:+ bytes_hex b)%string →
     to_hex rt b = ("0x" +:+ bytes_hex b)%string) ∧
  (∀ b1 b2 : bytes,
     hex_method rt b1 = bytes_hex b1 ∨ hex_method rt b1 = ("0x" +:+ bytes_hex b1)%string →
     hex_method rt b2 = bytes_hex b2 ∨ hex_method rt b2 = ("0x" +:+ bytes_hex b2)%string →
     to_hex rt b1 = to_hex rt b2 → b1 = b2).
Proof.
  assert (Hnorm : ∀ b : bytes,
            hex_method rt b = bytes_hex b ∨
            hex_method rt b = ("0x" +:+ bytes_hex b)%string →
            to_hex rt b = ("0x" +:+ bytes_hex b)%string).
  { intros b [H|H]; [by apply to_hex_unprefixed|by apply to_hex_prefixed]. }
  split; [done|]. intros b1 b2 H1 H2 Heq.
  rewrite (Hnorm b1 H1), (Hnorm b2 H2) in Heq. injection Heq as Heq.
  by apply bytes_hex_inj.
Qed.

(** X15. What [send_bundle_munger] hands to the relay and what it
    stores in the tracker are the same transactions in the same order:
    the signed transactions [sign_bundle] returned, as hexadecimal text in
    the txs parameter and with their hashes in the tracker, for the same
    target block.  When signing raises, the munger raises the same
    exception. *)
Theorem send_bundle_munger_spec (c : Collaborators) (rt : Runtime)
    (txs : list (gmap string pyval)) (target : Z) (opts : option (gmap string pyval))
    (h : gmap nat (gmap string pyval)) :
  (∀ params resp h',
     send_bundle_munger c rt txs target opts h = Ok (params, resp, h') →
     ∃ out p,
       Sync.sign_bundle c txs h = Ok (out, h') ∧ params = [p] ∧
       p !! "txs" = Some (VList (map (λ tx, VStr (to_hex rt tx)) out)) ∧
       p !! "blockNumber" = Some (VStr (py_hex rt target)) ∧
       map signed_transaction (FlashbotsBundleResponse.bundle resp) = out ∧
       map hash (FlashbotsBundleResponse.bundle resp) = map (keccak c) out ∧
       FlashbotsBundleResponse.target_block_number resp = target) ∧
  (∀ e, Sync.sign_bundle c txs h = Raise e →
        send_bundle_munger c rt txs target opts h = Raise e).
Proof.
  unfold send_bundle_munger. split.
  - intros params resp h' H. bind_inv H as r Hr. destruct r as [out h''].
    injection H as <- <- <-. exists out. eexists. split_and!; try done.
    + simpl. rewrite map_map. simpl. by rewrite map_id.
    + simpl. by rewrite map_map.
  - by intros e ->.
Qed.

(** X16. [send_private_transaction_munger] on a raw transaction: without
    a maximum it reads the head [n] and uses [n + 25], and fails when the
    head cannot be read; with a maximum given the head is not read at
    all.  Parameters and tracker hold the same transaction and the same
    maximum. *)
Theorem private_munger_deadline (c : Collaborators) (rt : Runtime)
    (transaction : gmap string pyval) (b : bytes)
    (h : gmap nat (gmap string pyval)) :
  is_raw_entry transaction b →
  (∀ n, send_private_transaction_munger c rt transaction None (Ok n) h =
        Ok ([ <["tx" := VStr (to_hex rt b)]> (<["maxBlockNumber" := VInt (n + 25)]> ∅) ],
            FlashbotsPrivateTransactionResponse.init c b (n + 25))) ∧
  (∀ e, send_private_transaction_munger c rt transaction None (Raise e) h = Raise e) ∧
  (∀ m head, send_private_transaction_munger c rt transaction (Some m) head h =
        Ok ([ <["tx" := VStr (to_hex rt b)]> (<["maxBlockNumber" := VInt m]> ∅) ],
            FlashbotsPrivateTransactionResponse.init c b m)).
Proof.
  intros Hb. unfold send_private_transaction_munger.
  rewrite (contains_Some _ _ _ Hb). apply getitem_Ok in Hb. rewrite Hb. simpl.
  by split_and!.
Qed.

(** X17. A transaction that has neither a signed_transaction nor a
    signer key makes [send_private_transaction_munger] raise
    [KeyError]; a signer entry is signed as its dictionary stands, with
    no nonce or gas filled in and no chain query, so the result is what
    [sign_transaction] gives for the stored dictionary. *)
Theorem private_munger_signing (c : Collaborators) (rt : Runtime)
    (transaction : gmap string pyval) (m : Z) (head : result Z)
    (h : gmap nat (gmap string pyval)) :
  (transaction !! "signed_transaction" = None → transaction !! "signer" = None →
   ∀ max, send_private_transaction_munger c rt transaction max head h =
          Raise (KeyError "signer")) ∧
  (∀ a l d, is_signer_entry transaction a l → h !! l = Some d →
     send_private_transaction_munger c rt transaction (Some m) head h =
       raw ← sign_transaction c a d;
       Ok ([ <["tx" := VStr (to_hex rt raw)]> (<["maxBlockNumber" := VInt m]> ∅) ],
           FlashbotsPrivateTransactionResponse.init c raw m)).
Proof.
  unfold send_private_transaction_munger. split.
  - intros H1 H2 max. apply contains_false in H1. rewrite H1.
    unfold getitem. by rewrite H2.
  - intros a l d (H1 & H2 & H3) Hd. apply contains_false in H1. rewrite H1.
    apply getitem_Ok in H2, H3. rewrite H2. simpl. rewrite H3. simpl. rewrite Hd.
    by destruct (sign_transaction c a d).
Qed.

(** * Simulation *)

Lemma total_gas_used_Ok (a t : Z) (rs : list (gmap string pyval)) :
  total_gas_used a rs = Ok t ↔
  ∃ gs, Forall2 (λ b g, b !! "gasUsed" = Some (VInt g)) rs gs ∧
        t = a + foldr Z.add 0 gs.
Proof.
  revert a. induction rs as [|b rs IH]; intros a; simpl.
  - split.
    + intros [= <-]. exists []. split; [constructor|simpl; lia].
    + intros (gs & Hgs & ->). inversion Hgs. simpl. f_equal. lia.
  - split.
    + intros H. bind_inv H as g Hg. apply getitem_Ok in Hg.
      destruct g as [|n| | | | |]; try discriminate H.
      apply IH in H as (gs & Hgs & ->). exists (n :: gs).
      split; [by constructor|simpl; lia].
    + intros (gs & Hgs & ->). inversion Hgs as [|? n ? gs' Hn Hgs']; subst.
      apply getitem_Ok in Hn. rewrite Hn. simpl. apply IH. exists gs'.
      split; [done|simpl; lia].
Qed.

Section SimulateProps.
Context (c : Collaborators) (rt : Runtime).
Context (eth_callBundle : list (gmap string pyval) → result CallResult).

(** X18. A simulation that returns carries the signed transactions
    [sign_bundle] produced, and its totalGasUsed is the sum of the gasUsed
    fields of the results it carries (0 for no results). *)
Theorem simulate_total_gas (txs : list (gmap string pyval)) (block_tag : pyval)
    (state_block_tag block_timestamp : option Z) (head1 head2 : result Z)
    (h h' : gmap nat (gmap string pyval)) (sim : Simulation) :
  simulate c rt eth_callBundle txs block_tag state_block_tag block_timestamp
    head1 head2 h = Ok (sim, h') →
  Sync.sign_bundle c txs h = Ok (signedBundledTransactions sim, h') ∧
  ∃ gs, Forall2 (λ b g, b !! "gasUsed" = Some (VInt g)) (sim_results sim) gs ∧
        totalGasUsed sim = foldr Z.add 0 gs.
Proof.
  unfold simulate. intros H.
  bind_inv H as bn Hbn. bind_inv H as ebn Hebn. bind_inv H as esn Hesn.
  bind_inv H as ts Hts. bind_inv H as signed Hsigned. destruct signed as [out h''].
  bind_inv H as cr Hcr. bind_inv H as bh Hbh. bind_inv H as cd Hcd.
  bind_inv H as rs Hrs. bind_inv H as total Htotal. injection H as <- <-.
  simpl. split; [done|].
  apply total_gas_used_Ok in Htotal as (gs & Hgs & ->). by exists gs.
Qed.

(** X19. The block simulated on is [n], given as block tag or read as
    the head.  Without a timestamp the head is read (again) as [latest]:
    if it is above [n] (the chain moved on between the two reads, or the
    tag names a past block) the call raises before anything is signed;
    otherwise the call is the one with the timestamp of block [latest]
    plus 12 seconds per block up to [n]. *)
Theorem simulate_timestamp (txs : list (gmap string pyval)) (block_tag : pyval)
    (state_block_tag : option Z) (head1 : result Z) (n latest : Z)
    (h : gmap nat (gmap string pyval)) :
  (is_latest block_tag = true ∧ head1 = Ok n) ∨ block_tag = VInt n →
  (∀ k, ∃ s, w3_to_hex rt (VInt k) = Ok s) →
  (n < latest →
   simulate c rt eth_callBundle txs block_tag state_block_tag None head1 (Ok latest) h =
     Raise (Exception "block extrapolation negative")) ∧
  (∀ block t_latest head2,
     latest ≤ n → get_block c latest = Ok block →
     block !! "timestamp" = Some (VInt t_latest) →
     simulate c rt eth_callBundle txs block_tag state_block_tag None head1 (Ok latest) h =
     simulate c rt eth_callBundle txs block_tag state_block_tag
       (Some (t_latest + (n - latest) * 12)) head1 head2 h).
Proof.
  intros Htag Hhex.
  assert (Hbn : (if is_latest block_tag then n0 ← head1; Ok (VInt n0) else Ok block_tag)
                = Ok (VInt n)).
  { destruct Htag as [[-> ->]| ->]; done. }
  destruct (Hhex n) as (s & Hs).
  assert (Hstate : ∃ s', match state_block_tag with
                         | Some s0 => w3_to_hex rt (VInt s0)
                         | None => w3_to_hex rt (VInt (n - 1))
                         end = Ok s').
  { destruct state_block_tag as [s0|]; apply Hhex. }
  destruct Hstate as (s' & Hs').
  unfold simulate. rewrite Hbn. simpl. rewrite Hs. simpl. rewrite Hs'. simpl.
  split.
  - intros Hlt. unfold extrapolate_timestamp.
    by rewrite (proj2 (Z.ltb_lt _ _)) by lia.
  - intros block t_latest head2 Hle Hblock Hts. unfold extrapolate_timestamp.
    rewrite (proj2 (Z.ltb_ge _ _)) by lia. rewrite Hblock. simpl.
    apply getitem_Ok in Hts. rewrite Hts. done.
Qed.
End SimulateProps.

(** * The middleware and the provider *)

(** X20. The middleware hands every endpoint of [FlashbotsRPC] to the
    Flashbots provider and every other method to the next layer;
    [FLASHBOTS_METHODS] holds the nine endpoints and nothing else. *)
Theorem middleware_routes_flashbots_rpc {P R : Type}
    (provider_make_request make_request : string → P → R) (params : P) :
  let endpoints :=
    [FlashbotsRPC.eth_sendBundle; FlashbotsRPC.eth_callBundle;
     FlashbotsRPC.eth_cancelBundle; FlashbotsRPC.eth_sendPrivateTransaction;
     FlashbotsRPC.eth_cancelPrivateTransaction; FlashbotsRPC.flashbots_getBundleStats;
     FlashbotsRPC.flashbots_getUserStats; FlashbotsRPC.flashbots_getBundleStatsV2;
     FlashbotsRPC.flashbots_getUserStatsV2] in
  (∀ method, method ∈ endpoints →
     wrap_make_request provider_make_request make_request method params =
       provider_make_request method params) ∧
  (∀ method, method ∉ endpoints →
     wrap_make_request provider_make_request make_request method params =
       make_request method params).
Proof.
  intros endpoints.
  assert (Hset : ∀ method, method ∈ FLASHBOTS_METHODS ↔ method ∈ endpoints).
  { intros method. unfold FLASHBOTS_METHODS, endpoints.
    rewrite !elem_of_union, !elem_of_singleton, !elem_of_cons, elem_of_nil.
    unfold FlashbotsRPC.eth_sendBundle, FlashbotsRPC.eth_callBundle,
      FlashbotsRPC.eth_cancelBundle, FlashbotsRPC.eth_sendPrivateTransaction,
      FlashbotsRPC.eth_cancelPrivateTransaction, FlashbotsRPC.flashbots_getBundleStats,
      FlashbotsRPC.flashbots_getUserStats, FlashbotsRPC.flashbots_getBundleStatsV2,
      FlashbotsRPC.flashbots_getUserStatsV2. tauto. }
  unfold wrap_make_request. split; intros method Hm.
  - by rewrite bool_decide_eq_true_2 by (by apply Hset).
  - by rewrite bool_decide_eq_false_2 by (by rewrite Hset).
Qed.

Section ProviderProps.
Context (decode_utf8 : bytes → result string) (keccak_text_hex : string → string).
Context (sign_defunct_hex : Z → string → result string).
Context (signature_account : LocalAccount) (endpoint_uri : string).
Context (request_kwargs : option (gmap string pyval)).
Context {P R : Type} (get_request_headers : gmap string string).
Context (encode_rpc_request : string → P → bytes).
Context (decode_rpc_response : bytes → result R).
Context (session_request : HttpRequest → result bytes).

(** X21. The request [make_request] posts carries the encoded call as
    its body and, as X-Flashbots-Signature, the signer's address and the
    signature over the hash of that very body; a header of that name
    among the provider's own headers is overridden and all other headers
    are passed on.  The response returned is the decoded answer to that
    request. *)
Theorem make_request_signs_body (method : string) (params : P)
    (request : HttpRequest) (response : R) :
  make_request decode_utf8 keccak_text_hex sign_defunct_hex signature_account
    endpoint_uri request_kwargs get_request_headers encode_rpc_request
    decode_rpc_response session_request method params = Ok (request, response) →
  http_method request = "POST"%string ∧ url request = endpoint_uri ∧
  data request = encode_rpc_request method params ∧
  (∃ request_text signature,
     decode_utf8 (data request) = Ok request_text ∧
     sign_defunct_hex (key signature_account) (keccak_text_hex request_text) =
       Ok signature ∧
     headers request !! "X-Flashbots-Signature"%string =
       Some (address signature_account +:+ ":" +:+ signature)%string) ∧
  (∀ k, k ≠ "X-Flashbots-Signature"%string →
        headers request !! k = get_request_headers !! k) ∧
  ∃ raw_response,
    session_request request = Ok raw_response ∧
    decode_rpc_response raw_response = Ok response.
Proof.
  unfold make_request, _get_flashbots_headers, dict_or. intros H.
  bind_inv H as fh Hfh. bind_inv Hfh as text Htext. bind_inv Hfh as sig Hsig.
  injection Hfh as <-. bind_inv H as raw Hraw. bind_inv H as resp Hresp.
  injection H as <- <-. simpl. split_and!; try done.
  - exists text, sig. split_and!; try done.
    apply lookup_union_Some_l. by rewrite lookup_singleton_eq.
  - intros k Hk. rewrite lookup_union_r; [done|]. by rewrite lookup_singleton_ne.
  - by exists raw.
Qed.
End ProviderProps.

(** * Instances of the further properties *)

Lemma signer_entry_queries_eagerly_witness :
  Sync.sign_tx DemoMore.w3_offline
    {| nonces := <["0xA"%string := 6]> ∅; signed_transactions := [];
       heap := Demo.heap0 |}
    (Demo.signer_spec Demo.alice 0) = Raise (RPCError "offline").
Proof.
  apply (signer_entry_queries_eagerly DemoMore.w3_offline _ _ Demo.alice 0%nat
           Demo.transfer).
  - demo_entry.
  - vm_compute. reflexivity.
  - vm_compute. reflexivity.
  - reflexivity.
Defined.

Lemma parse_signed_tx_Ok_witness :
  ∃ sender, recover_transaction Demo.w3 Demo.raw_alice_5 = Ok sender ∧
    (<["from" := VStr "0xA"]> (<["nonce" := VInt 5]> ∅) : gmap string pyval) !! "from"
      = Some (VStr sender).
Proof.
  destruct (parse_signed_tx_Ok Demo.w3 Demo.raw_alice_5
              (<["from" := VStr "0xA"]> (<["nonce" := VInt 5]> ∅)))
    as (b0 & body & decoded & sender & _ & _ & Hrec & Hfrom & _).
  - vm_compute. reflexivity.
  - by exists sender.
Defined.

Lemma private_munger_deadline_witness :
  send_private_transaction_munger Demo.w3 DemoMore.rt
    (Demo.raw_spec Demo.raw_alice_5) None (Ok 100) Demo.heap0 =
  Ok ([ <["tx" := VStr (to_hex DemoMore.rt Demo.raw_alice_5)]>
          (<["maxBlockNumber" := VInt (100 + 25)]> ∅) ],
      FlashbotsPrivateTransactionResponse.init Demo.w3 Demo.raw_alice_5 (100 + 25)).
Proof.
  apply (proj1 (private_munger_deadline Demo.w3 DemoMore.rt
                  (Demo.raw_spec Demo.raw_alice_5) Demo.raw_alice_5 Demo.heap0
                  ltac:(demo_entry))).
Defined.

Lemma simulate_total_gas_witness :
  Sync.sign_bundle Demo.w3 Demo.bundle_mixed Demo.heap0 =
    Ok (signedBundledTransactions DemoMore.sim_mixed, Demo.heap_mixed) ∧
  ∃ gs, Forall2 (λ b g, b !! "gasUsed" = Some (VInt g))
          (sim_results DemoMore.sim_mixed) gs ∧
        totalGasUsed DemoMore.sim_mixed = foldr Z.add 0 gs.
Proof.
  apply (simulate_total_gas Demo.w3 DemoMore.rt DemoMore.call_bundle
           Demo.bundle_mixed (VInt 101) (Some 100) (Some 1700000000)
           (Raise (RPCError "offline")) (Raise (RPCError "offline")) Demo.heap0).
  vm_compute. reflexivity.
Defined.

Lemma simulate_timestamp_witness :
  simulate Demo.w3 DemoMore.rt DemoMore.call_bundle Demo.bundle_mixed VNone None None
    (Ok 100) (Ok 101) Demo.heap0 =
  Raise (Exception "block extrapolation negative").
Proof.
  apply (proj1 (simulate_timestamp Demo.w3 DemoMore.rt DemoMore.call_bundle
                  Demo.bundle_mixed VNone None (Ok 100) 100 101 Demo.heap0
                  (or_introl (conj eq_refl eq_refl))
                  (λ k, ex_intro _ _ eq_refl))).
  lia.
Defined.

Lemma make_request_signs_body_witness :
  data DemoMore.posted = String.list_byte_of_string "eth_sendBundle" ∧
  ∀ k, k ≠ "X-Flashbots-Signature"%string →
       headers DemoMore.posted !! k = DemoMore.base_headers !! k.
Proof.
  destruct (make_request_signs_body
              (λ b, Ok (String.string_of_list_byte b)) (λ s, s)
              (λ _ s, Ok ("sig(" +:+ s +:+ ")")%string) Demo.alice
              "https://relay.flashbots.net" None DemoMore.base_headers
              (λ (m : string) (_ : unit), String.list_byte_of_string m)
              (λ b : bytes, Ok b) (λ r, Ok (data r))
              "eth_sendBundle" tt DemoMore.posted
              (String.list_byte_of_string "eth_sendBundle"))
    as (_ & _ & Hdata & _ & Hother & _).
  - vm_compute. reflexivity.
  - by split.
Defined.

Lemma per_sender_nonces_witness :
  ∃ d' raw,
    DemoMore.heap_two_senders !! 2%nat = Some d' ∧
    signed_with Demo.w3 Demo.alice d'
      (3 + Z.of_nat (length (List.filter (is_signer_of "0xA")
                               (take 2 DemoMore.bundle_two_senders)))) raw ∧
    raw ∈ DemoMore.out_two_senders.
Proof.
  assert (Hmem : ∀ tx, tx ∈ DemoMore.bundle_two_senders →
            tx = Demo.signer_spec Demo.alice 0 ∨ tx = Demo.signer_spec Demo.bob 1 ∨
            tx = Demo.signer_spec Demo.alice 2).
  { intros tx Hin. unfold DemoMore.bundle_two_senders in Hin.
    rewrite !elem_of_cons, elem_of_nil in Hin. tauto. }
  apply (per_sender_nonces Demo.w3 "0xA" 3 DemoMore.bundle_two_senders Demo.heap0
           DemoMore.out_two_senders DemoMore.heap_two_senders)
    with (tx := Demo.signer_spec Demo.alice 2) (a := Demo.alice).
  - reflexivity.
  - apply (bool_decide_unpack _). vm_compute. exact I.
  - intros tx b p Hin Hb. exfalso.
    destruct (Hmem tx Hin) as [->|[->| ->]]; vm_compute in Hb; discriminate Hb.
  - intros tx a l Hin (_ & Hsigner & Hdict) Ha. exists Demo.transfer.
    destruct (Hmem tx Hin) as [->|[->| ->]];
      vm_compute in Hdict; injection Hdict as <-; split;
      vm_compute; reflexivity.
  - vm_compute. reflexivity.
  - reflexivity.
  - demo_entry.
  - reflexivity.
Defined.
